(** * brian2modelfitting: simulation executors and metric engine

    A shallow embedding of [brian2modelfitting/simulator.py] (the two
    [Simulator] strategies and the helpers of the standalone path), followed
    by the part of the metric engine that the test-suite
    [brian2modelfitting/tests/test_metric.py] exercises. *)

From stdpp Require Import gmap strings pretty list fin_maps.
From Stdlib Require Import QArith Qround.

Close Scope Q_scope.

(** ** Python exceptions *)

Inductive exn :=
| KeyError (key : string)
| AttributeError (attr : string)
| TypeError (msg : string)
| DimensionMismatchError
| AssertionError.

(** Addresses of Python objects. *)
Abbreviation loc := positive.

(** ** The brian2 collaborator

    brian2 is not part of the repository.  What the simulators need from it
    is gathered in one interface.  Its operations are total and
    deterministic: a failure inside brian2 (an unknown variable name, a
    dimension mismatch in a value) is outside this development.
    [NetState] is whatever [Network.store] captures and [Network.restore]
    brings back: the variables of the groups, the contents of the monitors
    and the clock. *)

Class Brian2 := {
  Value : Type;
  Duration : Type;
  NetState : Type;
  Trace : Type;
  (** [neurons.set_states(params, units=False)] on the runtime device *)
  Group_set_states : list (string * Value) → NetState → NetState;
  (** [neurons.__setattr__(k, v)] on the runtime device *)
  Group_setattr : string → Value → NetState → NetState;
  (** [network.run(duration, namespace={})] on the runtime device *)
  Network_advance : Duration → NetState → NetState;
  (** what the object named [monitor] has recorded *)
  Monitor_record : NetState → Trace;
  (** [device.get_array_name(variable)]; a variable is known by the group
      that owns it and by its name *)
  get_array_name : loc * string → string;
  (** the unused name that [device.static_array] picks for an array *)
  static_array_name : gmap string Value → string → string;
  (** [numpy.atleast_1d] *)
  atleast_1d : Value → Value
}.

Section Simulator.
Context `{B : Brian2}.

(** A Python [dict] that the code iterates over ([items()]) keeps its
    insertion order: an association list. *)
Fixpoint dict_get (d : list (string * Value)) (k : string) : option Value :=
  match d with
  | [] => None
  | (k', v) :: d' => if decide (k' = k) then Some v else dict_get d' k
  end.

(** ** Objects *)

(** A [brian2.Network]: the names of the objects it contains, its current
    state, and the snapshot that [store()] keeps under the default name. *)
Record Network := mkNetwork {
  objects : gset string;
  current : NetState;
  stored : option NetState
}.

(** Entries of [device.main_queue], the program that code generation
    turns into the standalone binary. *)
Inductive queue_item :=
| set_by_array (array_name static_array_name : string) (is_dynamic : bool)
| set_attribute (k : string) (v : Value)
| run_network (network : loc) (duration : Duration).

(** The global [brian2.device] on the standalone path.  [files] is the
    directory [static_arrays] under [device.project_dir], by file name.
    [builds] and [launches] count the code generations and the executions
    of the generated program. *)
Record Device := mkDevice {
  has_been_run : bool;
  main_queue : list queue_item;
  static_arrays : gmap string Value;
  files : gmap string Value;
  builds : nat;
  launches : nat
}.

(** A [Simulator] instance.  [params_init] is [None] as long as the
    attribute has not been assigned. *)
Record Simulator := mkSimulator {
  networks : gmap string loc;
  var_init : option (list (string * Value));
  params_init : option (gmap string string)
}.

(** [Simulator.__init__] *)
Definition Simulator_init : Simulator :=
  {| networks := ∅; var_init := None; params_init := None |}.

(** The simulator [self], the [Network] objects by address (an address
    outside [heap] holds an object of another class) and the device. *)
Record state := mkState {
  sim : Simulator;
  heap : gmap loc Network;
  device : Device
}.

Definition with_sim (f : Simulator → Simulator) (s : state) : state :=
  {| sim := f (sim s); heap := heap s; device := device s |}.
Definition with_heap (f : gmap loc Network → gmap loc Network) (s : state) : state :=
  {| sim := sim s; heap := f (heap s); device := device s |}.
Definition with_device (f : Device → Device) (s : state) : state :=
  {| sim := sim s; heap := heap s; device := f (device s) |}.

(** ** Statements: state and exceptions *)

Inductive result (A : Type) :=
| Ok (a : A) (s : state)
| Raise (e : exn) (s : state).
Arguments Ok {A} a s.
Arguments Raise {A} e s.

Definition M (A : Type) := state → result A.

Definition ret {A} (a : A) : M A := fun s => Ok a s.
Definition raise {A} (e : exn) : M A := fun s => Raise e s.
Definition bind {A C} (m : M A) (k : A → M C) : M C :=
  fun s => match m s with
           | Ok a s' => k a s'
           | Raise e s' => Raise e s'
           end.
Definition gets {A} (f : state → A) : M A := fun s => Ok (f s) s.
Definition modify (f : state → state) : M unit := fun s => Ok tt (f s).

Notation "'let*' x := m 'in' k" := (bind m (fun x => k))
  (at level 10, x name, m at level 100, k at level 200).

(** The state a statement leaves behind, also when it raises. *)
Definition final {A} (r : result A) : state :=
  match r with Ok _ s => s | Raise _ s => s end.

(** [for x in l: body] *)
Fixpoint for_each {A} (l : list A) (body : A → M unit) : M unit :=
  match l with
  | [] => ret tt
  | x :: l' => let* _ := body x in for_each l' body
  end.

(** [d[k]] on a [dict] *)
Definition dict_getitem (d : list (string * Value)) (k : string) : M Value :=
  match dict_get d k with
  | Some v => ret v
  | None => raise (KeyError k)
  end.

(** ** brian2 objects in the state *)

(** [isinstance(network, Network)] *)
Definition isinstance_Network (network : loc) : M bool :=
  gets (fun s => bool_decide (is_Some (heap s !! network))).

(** [name in network] *)
Definition Network_contains (network : loc) (name : string) : M bool :=
  fun s => match heap s !! network with
           | Some net => Ok (bool_decide (name ∈ objects net)) s
           | None => Raise (TypeError "argument of this type is not iterable") s
           end.

(** [network[name]]: the object of that name; the simulators only ever
    ask for the group, which lives in the state of the network. *)
Definition Network_getitem (network : loc) (name : string) : M loc :=
  fun s => match heap s !! network with
           | Some net =>
               if decide (name ∈ objects net) then Ok network s
               else Raise (KeyError name) s
           | None => Raise (TypeError "object is not subscriptable") s
           end.

(** [network.store()] *)
Definition Network_store (network : loc) : M unit :=
  fun s => match heap s !! network with
           | Some net =>
               Ok tt (with_heap <[network :=
                        {| objects := objects net; current := current net;
                           stored := Some (current net) |}]> s)
           | None => Raise (AttributeError "store") s
           end.

(** [network.restore()] *)
Definition Network_restore (network : loc) : M unit :=
  fun s => match heap s !! network with
           | Some net =>
               match stored net with
               | Some st =>
                   Ok tt (with_heap <[network :=
                            {| objects := objects net; current := st;
                               stored := stored net |}]> s)
               | None => Raise (KeyError "default") s
               end
           | None => Raise (AttributeError "restore") s
           end.

(** A method of the runtime device that rewrites the current state. *)
Definition on_current (network : loc) (meth : string)
    (f : NetState → NetState) : M unit :=
  fun s => match heap s !! network with
           | Some net =>
               Ok tt (with_heap <[network :=
                        {| objects := objects net; current := f (current net);
                           stored := stored net |}]> s)
           | None => Raise (AttributeError meth) s
           end.

(** [network.run(duration, namespace={})], runtime device *)
Definition Network_run (network : loc) (duration : Duration) : M unit :=
  on_current network "run" (Network_advance duration).

(** [neurons.set_states(params, units=False)], runtime device *)
Definition neurons_set_states (neurons : loc) (params : list (string * Value)) : M unit :=
  on_current neurons "set_states" (Group_set_states params).

(** [neurons.__setattr__(k, v)], runtime device *)
Definition neurons_setattr (neurons : loc) (k : string) (v : Value) : M unit :=
  on_current neurons "__setattr__" (Group_setattr k v).

(** ** The standalone device *)

Definition device_has_been_run : M bool :=
  gets (fun s => has_been_run (device s)).

(** [device.static_array(array_name, value)]: keeps the array under a name
    not yet in use and returns that name. *)
Definition device_static_array (array_name : string) (value : Value) : M string :=
  fun s =>
    let dv := device s in
    let name := static_array_name (static_arrays dv) array_name in
    Ok name (with_device (fun _ =>
      {| has_been_run := has_been_run dv; main_queue := main_queue dv;
         static_arrays := <[name := atleast_1d value]> (static_arrays dv);
         files := files dv; builds := builds dv; launches := launches dv |}) s).

(** [device.main_queue.append(item)] *)
Definition main_queue_append (item : queue_item) : M unit :=
  modify (with_device (fun dv =>
    {| has_been_run := has_been_run dv; main_queue := main_queue dv ++ [item];
       static_arrays := static_arrays dv; files := files dv;
       builds := builds dv; launches := launches dv |})).

(** [neurons.__getattr__(name)]: the view of the variable [name] of the
    group.  The name is taken to be a variable of the group: brian2 raises
    [AttributeError] for any other name, which is one of its own failures
    that the interface leaves out. *)
Definition neurons_getattr (neurons : loc) (name : string) : M (loc * string) :=
  ret (neurons, name).

(** [neurons.__setattr__(k, v)] on the standalone device: nothing is
    computed, the assignment becomes part of the program. *)
Definition standalone_setattr (neurons : loc) (k : string) (v : Value) : M unit :=
  main_queue_append (set_attribute k v).

(** [network.run(duration, namespace={})] on the standalone device (with
    its default [build_on_run]): the run is queued, the code is generated
    and built, the static arrays are written to their files and the
    program is executed. *)
Definition standalone_network_run (network : loc) (duration : Duration) : M unit :=
  modify (with_device (fun dv =>
    {| has_been_run := true;
       main_queue := main_queue dv ++ [run_network network duration];
       static_arrays := static_arrays dv;
       files := static_arrays dv ∪ files dv;
       builds := S (builds dv); launches := S (launches dv) |})).

(** [device.run(device.project_dir, with_output=False, run_args=[])] *)
Definition device_run : M unit :=
  modify (with_device (fun dv =>
    {| has_been_run := true; main_queue := main_queue dv;
       static_arrays := static_arrays dv; files := files dv;
       builds := builds dv; launches := S (launches dv) |})).

(** [value.tofile(os.path.join(device.project_dir, 'static_arrays',
    identifier))].  [device.project_dir] is [None] until the device is
    built, and [os.path.join] raises [TypeError] on [None]; with
    [build_on_run] the build is part of the first run, so the directory is
    there exactly when the device has been run. *)
Definition tofile (identifier : string) (value : Value) : M unit :=
  fun s =>
    if has_been_run (device s)
    then Ok tt (with_device (fun dv =>
           {| has_been_run := has_been_run dv; main_queue := main_queue dv;
              static_arrays := static_arrays dv;
              files := <[identifier := value]> (files dv);
              builds := builds dv; launches := launches dv |}) s)
    else Raise (TypeError "expected str, bytes or os.PathLike object, not NoneType") s.

(** ** simulator.py, module level *)

Definition initialize_parameter (variableview : loc * string) (value : Value) : M string :=
  let variable := variableview in
  let array_name := get_array_name variable in
  let* static_array_name := device_static_array array_name value in
  let* _ := main_queue_append (set_by_array array_name static_array_name false) in
  ret static_array_name.

Fixpoint initialize_neurons_from (params_init : gmap string string)
    (params_names : list string) (neurons : loc)
    (params : list (string * Value)) : M (gmap string string) :=
  match params_names with
  | [] => ret params_init
  | name :: rest =>
      let* view := neurons_getattr neurons name in
      let* value := dict_getitem params name in
      let* static_name := initialize_parameter view value in
      initialize_neurons_from (<[name := static_name]> params_init)
        rest neurons params
  end.

Definition initialize_neurons (params_names : list string) (neurons : loc)
    (params : list (string * Value)) : M (gmap string string) :=
  initialize_neurons_from ∅ params_names neurons params.

Definition run_again : M unit := device_run.

Definition set_parameter_value (identifier : string) (value : Value) : M unit :=
  tofile identifier (atleast_1d value).

Definition set_states (init_dict : gmap string string)
    (values : list (string * Value)) : M unit :=
  for_each values (fun '(obj_name, obj_values) =>
    match init_dict !! obj_name with
    | Some identifier => set_parameter_value identifier obj_values
    | None => raise (KeyError obj_name)
    end).

(** ** The two simulators *)

(** The error of both [initialize] methods (its message is written with
    single quotes here). *)
Definition role_error : exn :=
  KeyError "The provided network needs a 'monitor' and 'neurons'.".

(** [self.networks[name] = network] *)
Definition set_network (name : string) (network : loc) : M unit :=
  modify (with_sim (fun sm =>
    {| networks := <[name := network]> (networks sm);
       var_init := var_init sm; params_init := params_init sm |})).

(** [self.var_init = var_init] *)
Definition set_var_init (vi : option (list (string * Value))) : M unit :=
  modify (with_sim (fun sm =>
    {| networks := networks sm; var_init := vi;
       params_init := params_init sm |})).

(** [self.params_init = params_init] *)
Definition set_params_init (pi : gmap string string) : M unit :=
  modify (with_sim (fun sm =>
    {| networks := networks sm; var_init := var_init sm;
       params_init := Some pi |})).

(** [self.networks[name]] *)
Definition get_network (name : string) : M loc :=
  fun s => match networks (sim s) !! name with
           | Some network => Ok network s
           | None => Raise (KeyError name) s
           end.

(** [self.params_init] *)
Definition get_params_init : M (gmap string string) :=
  fun s => match params_init (sim s) with
           | Some pi => Ok pi s
           | None => Raise (AttributeError "params_init") s
           end.

(** The test that both [initialize] methods make:
    ['monitor' in network and 'neurons' in network]. *)
Definition has_roles (network : loc) : M bool :=
  let* m := Network_contains network "monitor" in
  if m : bool then Network_contains network "neurons" else ret false.

(** [RuntimeSimulator] *)

Definition RuntimeSimulator_initialize (network : loc)
    (vi : option (list (string * Value))) (name : string) : M unit :=
  let* is_network := isinstance_Network network in
  if negb is_network then raise AssertionError else
  let* ok := has_roles network in
  if negb ok then raise role_error else
  let* _ := set_network name network in
  let* _ := set_var_init vi in
  Network_store network.

Definition RuntimeSimulator_run (duration : Duration) (params : list (string * Value))
    (params_names : list string) (name : string) : M unit :=
  let* network := get_network name in
  let* _ := Network_restore network in
  let* neurons := Network_getitem network "neurons" in
  let* _ := neurons_set_states neurons params in
  let* vi := gets (fun s => var_init (sim s)) in
  let* _ := match vi with
            | Some d =>
                for_each d (fun '(k, v) =>
                  let* neurons := Network_getitem network "neurons" in
                  neurons_setattr neurons k v)
            | None => ret tt
            end in
  Network_run network duration.

(** [CPPStandaloneSimulator] *)

Definition CPPStandaloneSimulator_initialize (network : loc)
    (vi : option (list (string * Value))) (name : string) : M unit :=
  let* is_network := isinstance_Network network in
  if negb is_network then raise AssertionError else
  let* ok := has_roles network in
  if negb ok then raise role_error else
  let* _ := set_network name network in
  set_var_init vi.

Definition CPPStandaloneSimulator_run (duration : Duration) (params : list (string * Value))
    (params_names : list string) (name : string) : M unit :=
  let* network := get_network name in
  let* compiled := device_has_been_run in
  if negb compiled then
    let* neurons := Network_getitem network "neurons" in
    let* pi := initialize_neurons params_names neurons params in
    let* _ := set_params_init pi in
    let* vi := gets (fun s => var_init (sim s)) in
    let* _ := match vi with
              | Some d =>
                  for_each d (fun '(k, v) =>
                    let* neurons := Network_getitem network "neurons" in
                    standalone_setattr neurons k v)
              | None => ret tt
              end in
    standalone_network_run network duration
  else
    let* pi := get_params_init in
    let* _ := set_states pi params in
    run_again.

(** ** What a run computes *)

(** The loop over [self.var_init.items()], on the state of a network. *)
Definition apply_var_init (vi : option (list (string * Value)))
    (st : NetState) : NetState :=
  match vi with
  | Some d => fold_left (fun st '(k, v) => Group_setattr k v st) d st
  | None => st
  end.

(** What the caller reads from the monitor of the network registered
    under [name]. *)
Definition output_trace (name : string) (s : state) : option Trace :=
  match networks (sim s) !! name with
  | Some network =>
      match heap s !! network with
      | Some net => Some (Monitor_record (current net))
      | None => None
      end
  | None => None
  end.

(** Calls of the public interface of a simulator. *)
Inductive call :=
| call_initialize (network : loc) (vi : option (list (string * Value)))
    (name : string)
| call_run (duration : Duration) (params : list (string * Value))
    (params_names : list string) (name : string).

Definition runtime_exec (c : call) : M unit :=
  match c with
  | call_initialize network vi name =>
      RuntimeSimulator_initialize network vi name
  | call_run duration params params_names name =>
      RuntimeSimulator_run duration params params_names name
  end.

Definition cpp_exec (c : call) : M unit :=
  match c with
  | call_initialize network vi name =>
      CPPStandaloneSimulator_initialize network vi name
  | call_run duration params params_names name =>
      CPPStandaloneSimulator_run duration params params_names name
  end.

(** A sequence of calls; a call that raises leaves its state to the next
    one, as a caller that catches the exception would see it. *)
Fixpoint exec_all (exec : call → M unit) (cs : list call) (s : state) : state :=
  match cs with
  | [] => s
  | c :: cs' => exec_all exec cs' (final (exec c s))
  end.

(** The states of a [RuntimeSimulator] in use: a new simulator, with
    whatever networks exist, and then calls of its two methods. *)
Inductive runtime_reachable : state → Prop :=
| reachable_new h dv :
    runtime_reachable {| sim := Simulator_init; heap := h; device := dv |}
| reachable_call s c :
    runtime_reachable s → runtime_reachable (final (runtime_exec c s)).

(** [self.var_init = vi], as a function on states. *)
Definition replace_var_init (vi : option (list (string * Value))) : state → state :=
  with_sim (fun sm =>
    {| networks := networks sm; var_init := vi;
       params_init := params_init sm |}).

(** The same outcome, in another state. *)
Definition on_final {A} (f : state → state) (r : result A) : result A :=
  match r with
  | Ok a s => Ok a (f s)
  | Raise e s => Raise e (f s)
  end.

(** A statement that does not look at [var_init]. *)
Definition ignores_var_init {A} (m : M A) : Prop :=
  ∀ vi s, m (replace_var_init vi s) = on_final (replace_var_init vi) (m s).

(** What the [var_init] loop adds to the program on the standalone
    device. *)
Definition var_init_items (vi : option (list (string * Value))) : list queue_item :=
  match vi with
  | Some d => map (fun '(k, v) => set_attribute k v) d
  | None => []
  end.

Definition is_set_by_array (item : queue_item) : Prop :=
  match item with set_by_array _ _ _ => True | _ => False end.

(** The file names that the values of [params_init] address. *)
Definition addressed (pi : option (gmap string string)) (file : string) : Prop :=
  ∃ init_dict name, pi = Some init_dict ∧ init_dict !! name = Some file.

(** How often a sequence of calls on a [CPPStandaloneSimulator] gets
    through a [run]. *)
Fixpoint completed_runs (cs : list call) (s : state) : nat :=
  match cs with
  | [] => 0
  | c :: cs' =>
      match c, cpp_exec c s with
      | call_run _ _ _ _, Ok _ _ => 1
      | _, _ => 0
      end + completed_runs cs' (final (cpp_exec c s))
  end.

(** Every registered name leads to a network that has the group and a
    snapshot. *)
Definition runtime_wf (s : state) : Prop :=
  ∀ name network, networks (sim s) !! name = Some network →
    ∃ net, heap s !! network = Some net ∧ "neurons" ∈ objects net ∧
           is_Some (stored net).

End Simulator.

Arguments Ok {B A} a s.
Arguments Raise {B A} e s.

Notation "'let*' x := m 'in' k" := (bind m (fun x => k))
  (at level 10, x name, m at level 100, k at level 200).

(** ** A concrete brian2: one integrator

    A network with two variables, [v] and [I]; a time step adds [I] to [v]
    and the monitor records [v].  Values are integers and a duration is a
    number of steps.  Used to run the simulators on concrete inputs. *)

Record integrator_state := mkIntegrator {
  variables : gmap string Z;
  recorded : list Z
}.

Definition integrator_set (k : string) (v : Z) (st : integrator_state) :=
  {| variables := <[k := v]> (variables st); recorded := recorded st |}.

Definition integrator_step (st : integrator_state) : integrator_state :=
  let v := (default 0 (variables st !! "v") + default 0 (variables st !! "I"))%Z in
  {| variables := <["v" := v]> (variables st); recorded := recorded st ++ [v] |}.

(** [base], [base_1], [base_2], ...: the first one that [used] lacks. *)
Fixpoint first_unused (used : gmap string Z) (base : string) (i fuel : nat) : string :=
  let name := match i with O => base | _ => base +:+ "_" +:+ pretty i end in
  match fuel with
  | O => name
  | S fuel' =>
      if decide (used !! name = None) then name
      else first_unused used base (S i) fuel'
  end.

#[local] Instance integrator : Brian2 := {|
  Value := Z;
  Duration := nat;
  NetState := integrator_state;
  Trace := list Z;
  Group_set_states := fun params st =>
    fold_left (fun st '(k, v) => integrator_set k v st) params st;
  Group_setattr := integrator_set;
  Network_advance := fun n st => Nat.iter n integrator_step st;
  Monitor_record := recorded;
  get_array_name := fun variable =>
    "_array_neurons" +:+ pretty (Npos variable.1) +:+ "_" +:+ variable.2;
  static_array_name := fun used array_name =>
    first_unused used ("_static_array_" +:+ array_name) 0 (size used);
  atleast_1d := fun v => v
|}.

Definition a_network : Network :=
  {| objects := {["neurons"; "monitor"]};
     current := {| variables := {["v" := 0%Z; "I" := 0%Z]}; recorded := [] |};
     stored := None |}.

Definition no_monitor : Network :=
  {| objects := {["neurons"]};
     current := {| variables := {["v" := 0%Z]}; recorded := [] |};
     stored := None |}.

Definition new_device : Device :=
  {| has_been_run := false; main_queue := []; static_arrays := ∅;
     files := ∅; builds := 0; launches := 0 |}.

Definition another_network : Network :=
  {| objects := {["neurons"; "monitor"; "input"]};
     current := {| variables := {["v" := 5%Z; "I" := 0%Z]}; recorded := [] |};
     stored := None |}.

(** A new simulator; three networks exist, at addresses 1, 2 and 3. *)
Definition new_state : state :=
  {| sim := Simulator_init;
     heap := {[1%positive := a_network; 2%positive := no_monitor;
               3%positive := another_network]};
     device := new_device |}.

(** The simulator after [initialize(network_1, {'I': 2}, 'fit')], for each
    strategy. *)
Definition runtime_fit : state :=
  final (runtime_exec
           (call_initialize 1%positive (Some [("I", 2%Z)]) "fit") new_state).

Definition cpp_fit : state :=
  final (cpp_exec
           (call_initialize 1%positive (Some [("I", 2%Z)]) "fit") new_state).

(** ... and after [initialize(network_3, {'I': 7}, 'other')] on the same
    [RuntimeSimulator]. *)
Definition runtime_other : state :=
  final (runtime_exec
           (call_initialize 3%positive (Some [("I", 7%Z)]) "other") runtime_fit).

(** The standalone simulator after a first [run(3, {'v': 10}, ['v'], 'fit')]. *)
Definition cpp_compiled : state :=
  final (cpp_exec (call_run 3 [("v", 10%Z)] ["v"] "fit") cpp_fit).

(** Two more runs, with other parameters. *)
Definition two_reruns : list call :=
  [call_run 3 [("v", 20%Z)] ["v"] "fit"; call_run 5 [("v", 30%Z)] ["v"] "fit"].

(** A second [CPPStandaloneSimulator], made and initialized after the first
    one has run: the networks and the device are the same objects. *)
Definition cpp_second : state :=
  final (cpp_exec
           (call_initialize 3%positive None "fit")
           {| sim := Simulator_init; heap := heap cpp_compiled;
              device := device cpp_compiled |}).

(** * The metric engine

    [brian2modelfitting/metric.py] is not among the sources; its test-suite
    is.  The definitions below follow the specification, and the tests
    where the specification leaves a choice.  Numbers are rationals: a
    decimal literal stands for the fraction it writes. *)

Section Metric.
Local Open Scope Q_scope.

(** Modelled from the spec: [firing_rate] of metric.py, which is missing.
    "(event-count - 1) divided by the time span between its first and last
    event"; with fewer than 2 events there is no rate, and the sentinel is
    [None]. *)
Definition firing_rate (spikes : list Q) : option Q :=
  match head spikes, last spikes with
  | Some first, Some final_ =>
      if decide (2 ≤ length spikes)%nat
      then Some ((inject_Z (Z.of_nat (length spikes)) - 1) / (final_ - first))
      else None
  | _, _ => None
  end.

Definition Qsum (xs : list Q) : Q := foldr Qplus 0 xs.

(** The mean of no sample is undefined. *)
Definition mean (xs : list Q) : option Q :=
  match xs with
  | [] => None
  | _ => Some (Qsum xs / inject_Z (Z.of_nat (length xs)))
  end.

Definition mean_squared_difference (simulated target : list Q) : option Q :=
  mean (zip_with (fun a b => (a - b) * (a - b)) simulated target).

(** How a start time becomes a sample index, given the time step; the
    specification only says that it does. *)
Variable to_samples : Q → Q → nat.

(** Modelled from the spec: [MSEMetric.get_features] of metric.py, which is
    missing.  [simulated] has [n_channels * n_candidates] rows, the
    candidates of a channel next to each other, [target] has [n_channels]
    rows; the feature of a channel and a candidate is the mean squared
    difference of the two series from the start sample on.  A row that is
    not there or a series without samples makes the whole call fail. *)
Definition MSEMetric_get_features (simulated target : list (list Q))
    (n_channels : nat) (dt t_start : Q) : option (list (list Q)) :=
  let n_candidates := (length simulated / n_channels)%nat in
  let start := to_samples t_start dt in
  mapM (fun channel =>
    target_series ← target !! channel;
    mapM (fun candidate =>
      series ← simulated !! (channel * n_candidates + candidate)%nat;
      mean_squared_difference (drop start series) (drop start target_series))
      (seq 0 n_candidates))
    (seq 0 n_channels).

(** Physical dimensions, as exponents of the seven base units, and
    quantities in base units.  A bare number is a quantity without
    dimension. *)
Record Dimension := mkDimension {
  metre : Z; kilogram : Z; second : Z; ampere : Z;
  kelvin : Z; mole : Z; candela : Z
}.

#[global] Instance Dimension_eq_dec : EqDecision Dimension.
Proof. solve_decision. Defined.

Record Quantity := mkQuantity { magnitude : Q; dimension : Dimension }.

Definition dimensionless : Dimension := mkDimension 0 0 0 0 0 0 0.
Definition time_dimension : Dimension := mkDimension 0 0 1 0 0 0 0.

Definition number (x : Q) : Quantity := mkQuantity x dimensionless.
Definition ms (x : Q) : Quantity := mkQuantity (x / 1000) time_dimension.

Definition is_time (q : Quantity) : bool :=
  bool_decide (dimension q = time_dimension).

Record GammaFactor := mkGammaFactor { delta : Quantity; time : Quantity }.

(** Modelled from the spec: [GammaFactor.__init__] of metric.py, which is
    missing.  Both arguments are needed and both must be times.  The
    exceptions and their order are those that [test_calc_gf] observes: an
    argument that is given without a time unit is a
    [DimensionMismatchError], also when the other one is missing; without
    such an argument, a missing one is a [TypeError]. *)
Definition GammaFactor_init (delta time : option Quantity) : exn + GammaFactor :=
  if negb (from_option is_time true delta && from_option is_time true time)
  then inl DimensionMismatchError
  else match delta, time with
       | Some delta, Some time => inr (mkGammaFactor delta time)
       | _, _ => inl (TypeError "missing required positional argument")
       end.

End Metric.

(** Concrete inputs for the metric engine: a conversion of times to sample
    indices (rounding down) and an array of 2 series of 20 samples. *)
Definition floor_samples (t dt : Q) : nat := Z.to_nat (Qfloor (t / dt)).

Definition X_2_20 : list (list Q) :=
  [map (fun i => inject_Z (Z.of_nat i) / 20)%Q (seq 0 20);
   map (fun i => 1 - inject_Z (Z.of_nat (i * i)) / 400)%Q (seq 0 20)].

(** * More about the simulators

    What a statement leaves alone, as a relation between the state before
    and the state it ends in, whether it returns or raises. *)

Section Frames.
Context `{B : Brian2}.

Definition preserves (R : state → state → Prop) {A} (m : M A) : Prop :=
  ∀ s, R s (final (m s)).

(** Only the current state of the network at [network] may differ. *)
Definition touches_only_current (network : loc) (s s' : state) : Prop :=
  sim s' = sim s ∧ device s' = device s ∧
  (∀ other, other ≠ network → heap s' !! other = heap s !! other) ∧
  match heap s !! network, heap s' !! network with
  | Some net, Some net' =>
      objects net' = objects net ∧ stored net' = stored net
  | None, None => True
  | _, _ => False
  end.

(** The registered networks and [var_init] are as they were. *)
Definition keeps_registry (s s' : state) : Prop :=
  networks (sim s') = networks (sim s) ∧
  var_init (sim s') = var_init (sim s).

(** The files after the loop of [set_states] has gone through [values]. *)
Definition written (init_dict : gmap string string)
    (values : list (string * Value)) (fs : gmap string Value) : gmap string Value :=
  foldl (fun fs '(obj_name, obj_values) =>
           match init_dict !! obj_name with
           | Some identifier => <[identifier := atleast_1d obj_values]> fs
           | None => fs
           end) fs values.

(** The device with other files. *)
Definition with_files (f : gmap string Value → gmap string Value) : state → state :=
  with_device (fun dv =>
    {| has_been_run := has_been_run dv; main_queue := main_queue dv;
       static_arrays := static_arrays dv; files := f (files dv);
       builds := builds dv; launches := launches dv |}).

End Frames.

(** Concrete inputs on the integrator. *)

(** The [RuntimeSimulator] with network 1 registered under a second name. *)
Definition runtime_alias : state :=
  final (runtime_exec (call_initialize 1%positive None "again") runtime_fit).

(** A [RuntimeSimulator] after [initialize(network_3, {'I': 2}, 'fit')]. *)
Definition runtime_three : state :=
  final (runtime_exec
           (call_initialize 3%positive (Some [("I", 2%Z)]) "fit") new_state).

Definition only_v : list (string * @Value integrator) := [("v", 10%Z)].
Definition v_and_I : list (string * @Value integrator) := [("v", 10%Z); ("I", 1%Z)].
Definition w_only : list (string * @Value integrator) := [("w", 4%Z)].
Definition v_20 : list (string * @Value integrator) := [("v", 20%Z)].
Definition I_only : list (string * @Value integrator) := [("I", 1%Z)].
Definition file_of_v : gmap string string := {["v" := "file_v"]}.
Definition three_steps : @Duration integrator := 3.
Definition five_steps : @Duration integrator := 5.

Section SimulatorProofs.
Context `{B : Brian2}.

(** ** Proofs: the monad *)

Lemma bind_Ok {A C} (m : M A) (k : A → M C) s a s' :
  m s = Ok a s' → bind m k s = k a s'.
Proof. intros E. unfold bind. by rewrite E. Qed.

Lemma bind_Raise {A C} (m : M A) (k : A → M C) s e s' :
  m s = Raise e s' → bind m k s = Raise e s'.
Proof. intros E. unfold bind. by rewrite E. Qed.

Lemma state_eta s : {| sim := sim s; heap := heap s; device := device s |} = s.
Proof. by destruct s. Qed.

Lemma Network_eta net :
  {| objects := objects net; current := current net; stored := stored net |} = net.
Proof. by destruct net. Qed.

(** ** Proofs: [initialize] *)

Lemma has_roles_spec network net s :
  heap s !! network = Some net →
  has_roles network s =
    Ok (bool_decide ("monitor" ∈ objects net) && bool_decide ("neurons" ∈ objects net)) s.
Proof.
  intros Hnet. unfold has_roles, bind, Network_contains, ret. rewrite Hnet.
  destruct (bool_decide ("monitor" ∈ objects net)); simpl; [by rewrite Hnet | done].
Qed.

Lemma RuntimeSimulator_initialize_ok network vi name net s :
  heap s !! network = Some net →
  "monitor" ∈ objects net → "neurons" ∈ objects net →
  RuntimeSimulator_initialize network vi name s =
    Ok tt {| sim := {| networks := <[name := network]> (networks (sim s));
                       var_init := vi; params_init := params_init (sim s) |};
             heap := <[network := {| objects := objects net; current := current net;
                                     stored := Some (current net) |}]> (heap s);
             device := device s |}.
Proof.
  intros Hnet Hm Hn. unfold RuntimeSimulator_initialize.
  unfold bind at 1. unfold isinstance_Network, gets.
  rewrite bool_decide_eq_true_2 by (rewrite Hnet; eauto). simpl.
  rewrite (bind_Ok _ _ _ _ _ (has_roles_spec _ _ _ Hnet)).
  rewrite !bool_decide_eq_true_2 by done. simpl.
  unfold bind, set_network, set_var_init, modify, Network_store. simpl.
  by rewrite Hnet.
Qed.

Lemma CPPStandaloneSimulator_initialize_ok network vi name net s :
  heap s !! network = Some net →
  "monitor" ∈ objects net → "neurons" ∈ objects net →
  CPPStandaloneSimulator_initialize network vi name s =
    Ok tt {| sim := {| networks := <[name := network]> (networks (sim s));
                       var_init := vi; params_init := params_init (sim s) |};
             heap := heap s; device := device s |}.
Proof.
  intros Hnet Hm Hn. unfold CPPStandaloneSimulator_initialize.
  unfold bind at 1. unfold isinstance_Network, gets.
  rewrite bool_decide_eq_true_2 by (rewrite Hnet; eauto). simpl.
  rewrite (bind_Ok _ _ _ _ _ (has_roles_spec _ _ _ Hnet)).
  rewrite !bool_decide_eq_true_2 by done. simpl.
  by unfold bind, set_network, set_var_init, modify.
Qed.

Lemma initialize_missing_role network vi name net s :
  heap s !! network = Some net →
  "monitor" ∉ objects net ∨ "neurons" ∉ objects net →
  RuntimeSimulator_initialize network vi name s = Raise role_error s ∧
  CPPStandaloneSimulator_initialize network vi name s = Raise role_error s.
Proof.
  intros Hnet Hmiss.
  assert (bool_decide ("monitor" ∈ objects net) && bool_decide ("neurons" ∈ objects net) = false) as Hb.
  { destruct Hmiss as [H|H]; rewrite (bool_decide_eq_false_2 _ H); [done | apply andb_false_r]. }
  split.
  all: unfold RuntimeSimulator_initialize, CPPStandaloneSimulator_initialize.
  all: unfold bind at 1; unfold isinstance_Network, gets.
  all: rewrite bool_decide_eq_true_2 by (rewrite Hnet; eauto); simpl.
  all: rewrite (bind_Ok _ _ _ _ _ (has_roles_spec _ _ _ Hnet)).
  all: by rewrite Hb.
Qed.

Lemma initialize_not_a_network network vi name s :
  heap s !! network = None →
  RuntimeSimulator_initialize network vi name s = Raise AssertionError s ∧
  CPPStandaloneSimulator_initialize network vi name s = Raise AssertionError s.
Proof.
  intros Hnet.
  assert (¬ is_Some (heap s !! network)) as Hno by (rewrite Hnet; by intros [? ?]).
  split.
  all: unfold RuntimeSimulator_initialize, CPPStandaloneSimulator_initialize.
  all: unfold bind at 1; unfold isinstance_Network, gets.
  all: by rewrite (bool_decide_eq_false_2 _ Hno).
Qed.

Lemma initialize_sets_var_init network vi name s s' :
  RuntimeSimulator_initialize network vi name s = Ok tt s' ∨
  CPPStandaloneSimulator_initialize network vi name s = Ok tt s' →
  var_init (sim s') = vi.
Proof.
  intros Hinit. destruct (heap s !! network) as [net|] eqn:Hnet.
  - destruct (decide ("monitor" ∈ objects net ∧ "neurons" ∈ objects net))
      as [[Hm Hn]|Hmiss].
    + rewrite (RuntimeSimulator_initialize_ok _ vi name _ _ Hnet Hm Hn) in Hinit.
      rewrite (CPPStandaloneSimulator_initialize_ok _ vi name _ _ Hnet Hm Hn) in Hinit.
      by destruct Hinit as [[= <-]|[= <-]].
    + apply not_and_l in Hmiss.
      destruct (initialize_missing_role _ vi name _ _ Hnet Hmiss) as [Hr Hc].
      rewrite Hr, Hc in Hinit. by destruct Hinit.
  - destruct (initialize_not_a_network _ vi name _ Hnet) as [Hr Hc].
    rewrite Hr, Hc in Hinit. by destruct Hinit.
Qed.

(** ** Proofs: [RuntimeSimulator.run] *)

Lemma with_heap_insert_twice network net1 net2 s :
  with_heap <[network := net2]> (with_heap <[network := net1]> s) =
  with_heap <[network := net2]> s.
Proof. unfold with_heap. simpl. by rewrite insert_insert_eq. Qed.

Lemma heap_insert_lookup network net s :
  heap (with_heap <[network := net]> s) !! network = Some net.
Proof. apply lookup_insert_eq. Qed.

Lemma get_network_ok name network s :
  networks (sim s) !! name = Some network → get_network name s = Ok network s.
Proof. intros H. unfold get_network. by rewrite H. Qed.

Lemma get_network_unregistered name s :
  networks (sim s) !! name = None → get_network name s = Raise (KeyError name) s.
Proof. intros H. unfold get_network. by rewrite H. Qed.

Lemma Network_getitem_ok network name net s :
  heap s !! network = Some net → name ∈ objects net →
  Network_getitem network name s = Ok network s.
Proof. intros H Hin. unfold Network_getitem. by rewrite H, decide_True. Qed.

Lemma Network_restore_ok network net st s :
  heap s !! network = Some net → stored net = Some st →
  Network_restore network s =
    Ok tt (with_heap <[network :=
      {| objects := objects net; current := st; stored := stored net |}]> s).
Proof. intros H Hst. unfold Network_restore. by rewrite H, Hst. Qed.

Lemma on_current_ok network meth f net s :
  heap s !! network = Some net →
  on_current network meth f s =
    Ok tt (with_heap <[network :=
      {| objects := objects net; current := f (current net);
         stored := stored net |}]> s).
Proof. intros H. unfold on_current. by rewrite H. Qed.

Lemma runtime_var_init_loop network d : ∀ s net,
  heap s !! network = Some net → "neurons" ∈ objects net →
  for_each d (fun '(k, v) =>
    let* neurons := Network_getitem network "neurons" in
    neurons_setattr neurons k v) s =
  Ok tt (with_heap <[network :=
    {| objects := objects net;
       current := apply_var_init (Some d) (current net);
       stored := stored net |}]> s).
Proof.
  induction d as [|[k v] d IH]; intros s net Hnet Hneu; simpl.
  - unfold ret, with_heap. rewrite Network_eta, insert_id by done.
    by rewrite state_eta.
  - unfold bind at 1. unfold bind at 1. unfold Network_getitem.
    rewrite Hnet, decide_True by done.
    unfold neurons_setattr, on_current. rewrite Hnet.
    erewrite IH; [| apply lookup_insert_eq | done].
    by rewrite with_heap_insert_twice.
Qed.

Lemma RuntimeSimulator_run_spec d p pn name network net st s :
  networks (sim s) !! name = Some network →
  heap s !! network = Some net →
  stored net = Some st →
  "neurons" ∈ objects net →
  RuntimeSimulator_run d p pn name s =
    Ok tt (with_heap <[network :=
      {| objects := objects net;
         current := Network_advance d
                      (apply_var_init (var_init (sim s)) (Group_set_states p st));
         stored := Some st |}]> s).
Proof.
  intros Hname Hnet Hst Hneu. unfold RuntimeSimulator_run.
  rewrite (bind_Ok _ _ _ _ _ (get_network_ok _ _ _ Hname)).
  rewrite (bind_Ok _ _ _ _ _ (Network_restore_ok _ _ _ _ Hnet Hst)).
  erewrite bind_Ok; [| by eapply Network_getitem_ok; [apply heap_insert_lookup |]].
  unfold neurons_set_states, Network_run.
  erewrite bind_Ok; [| by eapply on_current_ok, heap_insert_lookup].
  rewrite with_heap_insert_twice. simpl.
  unfold bind at 1. unfold gets. simpl.
  destruct (var_init (sim s)) as [vi|]; simpl.
  - erewrite bind_Ok;
      [| by eapply runtime_var_init_loop; [apply heap_insert_lookup |]].
    rewrite with_heap_insert_twice. simpl.
    erewrite on_current_ok by apply heap_insert_lookup.
    rewrite with_heap_insert_twice. simpl. by rewrite Hst.
  - unfold bind at 1. unfold ret.
    erewrite on_current_ok by apply heap_insert_lookup.
    rewrite with_heap_insert_twice. simpl. by rewrite Hst.
Qed.

(** The invariant holds for a new simulator and every call keeps it. *)

Lemma runtime_wf_new h dv :
  runtime_wf {| sim := Simulator_init; heap := h; device := dv |}.
Proof. intros name network. simpl. by rewrite lookup_empty. Qed.

Lemma runtime_wf_initialize network vi name s :
  runtime_wf s → runtime_wf (final (RuntimeSimulator_initialize network vi name s)).
Proof.
  intros Hwf. destruct (heap s !! network) as [net|] eqn:Hnet.
  - destruct (decide ("monitor" ∈ objects net ∧ "neurons" ∈ objects net))
      as [[Hm Hn]|Hmiss].
    + rewrite (RuntimeSimulator_initialize_ok _ vi name _ _ Hnet Hm Hn). simpl.
      intros name' network'. simpl. intros Hreg.
      destruct (decide (network = network')) as [<-|Hne].
      * rewrite lookup_insert_eq. eexists. split; [done |]. simpl. eauto.
      * rewrite lookup_insert_ne by done. apply (Hwf name').
        destruct (decide (name = name')) as [<-|Hne'].
        -- rewrite lookup_insert_eq in Hreg. congruence.
        -- by rewrite lookup_insert_ne in Hreg.
    + apply not_and_l in Hmiss.
      by rewrite (proj1 (initialize_missing_role _ vi name _ _ Hnet Hmiss)).
  - by rewrite (proj1 (initialize_not_a_network _ vi name _ Hnet)).
Qed.

Lemma runtime_wf_run d p pn name s :
  runtime_wf s → runtime_wf (final (RuntimeSimulator_run d p pn name s)).
Proof.
  intros Hwf. destruct (networks (sim s) !! name) as [network|] eqn:Hname.
  - destruct (Hwf _ _ Hname) as (net & Hnet & Hneu & [st Hst]).
    rewrite (RuntimeSimulator_run_spec d p pn _ _ _ _ _ Hname Hnet Hst Hneu).
    simpl. intros name' network' Hreg. unfold with_heap. simpl.
    destruct (decide (network = network')) as [<-|Hne].
    + rewrite lookup_insert_eq. eexists. split; [done |]. simpl. eauto.
    + rewrite lookup_insert_ne by done. by apply (Hwf name').
  - unfold RuntimeSimulator_run, bind, get_network. by rewrite Hname.
Qed.

Lemma runtime_reachable_wf s : runtime_reachable s → runtime_wf s.
Proof.
  induction 1 as [h dv|s c _ IH]; [apply runtime_wf_new |].
  destruct c; simpl; [by apply runtime_wf_initialize | by apply runtime_wf_run].
Qed.

(** C1. On a [RuntimeSimulator] in use, a [run] on a registered name
    succeeds, and the same [run] again (same duration, params,
    params_names and name) succeeds with the same output trace, in fact
    with the same state: the trace is that of the snapshot, after
    [set_states(params)], then the [var_init] loop, then the advance. *)
Theorem runtime_run_reproducible d p pn name s :
  runtime_reachable s →
  is_Some (networks (sim s) !! name) →
  ∃ network net st s1 s2,
    networks (sim s) !! name = Some network ∧
    heap s !! network = Some net ∧ stored net = Some st ∧
    RuntimeSimulator_run d p pn name s = Ok tt s1 ∧
    RuntimeSimulator_run d p pn name s1 = Ok tt s2 ∧
    s2 = s1 ∧
    output_trace name s2 = output_trace name s1 ∧
    output_trace name s1 =
      Some (Monitor_record (Network_advance d
              (apply_var_init (var_init (sim s)) (Group_set_states p st)))).
Proof.
  intros Hreach [network Hname].
  destruct (runtime_reachable_wf _ Hreach _ _ Hname) as (net & Hnet & Hneu & [st Hst]).
  pose proof (RuntimeSimulator_run_spec d p pn _ _ _ _ _ Hname Hnet Hst Hneu) as Hrun1.
  set (net1 := {| objects := objects net;
                  current := Network_advance d
                    (apply_var_init (var_init (sim s)) (Group_set_states p st));
                  stored := Some st |}) in Hrun1.
  pose proof (RuntimeSimulator_run_spec d p pn name network net1 st
                (with_heap <[network := net1]> s)
                Hname (heap_insert_lookup _ _ _) eq_refl Hneu) as Hrun2.
  rewrite with_heap_insert_twice in Hrun2. simpl in Hrun2. fold net1 in Hrun2.
  exists network, net, st, (with_heap <[network := net1]> s),
    (with_heap <[network := net1]> s).
  repeat (split; [done |]).
  unfold output_trace. simpl. by rewrite Hname, lookup_insert_eq.
Qed.

(** C4. Both [initialize] methods raise the [KeyError] of the role test
    when the network lacks [monitor] or [neurons]; this happens in
    [initialize] itself, whose state is left as it was.  With both roles
    the call succeeds and [name] is registered for the network. *)
Theorem initialize_requires_roles network vi name net s :
  heap s !! network = Some net →
  ("monitor" ∉ objects net ∨ "neurons" ∉ objects net →
     RuntimeSimulator_initialize network vi name s = Raise role_error s ∧
     CPPStandaloneSimulator_initialize network vi name s = Raise role_error s) ∧
  ("monitor" ∈ objects net ∧ "neurons" ∈ objects net →
     ∃ s1 s2,
       RuntimeSimulator_initialize network vi name s = Ok tt s1 ∧
       networks (sim s1) !! name = Some network ∧
       CPPStandaloneSimulator_initialize network vi name s = Ok tt s2 ∧
       networks (sim s2) !! name = Some network).
Proof.
  intros Hnet. split.
  - intros Hmiss. by apply (initialize_missing_role _ _ _ net).
  - intros [Hm Hn]. eexists _, _.
    rewrite (RuntimeSimulator_initialize_ok _ vi name _ _ Hnet Hm Hn).
    rewrite (CPPStandaloneSimulator_initialize_ok _ vi name _ _ Hnet Hm Hn).
    split; [reflexivity |]. split; [apply lookup_insert_eq |].
    split; [reflexivity |]. apply lookup_insert_eq.
Qed.

(** C9. [initialize] overwrites the one [var_init] of the simulator: after
    a first network is registered with [v1] and a second one, under
    another name, with [v2], a [run] on the first name applies [v2] to the
    first network. *)
Theorem var_init_is_shared network1 network2 v1 v2 name1 name2 net1 d p pn s s1 s2 :
  name1 ≠ name2 →
  heap s !! network1 = Some net1 →
  RuntimeSimulator_initialize network1 v1 name1 s = Ok tt s1 →
  RuntimeSimulator_initialize network2 v2 name2 s1 = Ok tt s2 →
  var_init (sim s1) = v1 ∧ var_init (sim s2) = v2 ∧
  (∀ s2', CPPStandaloneSimulator_initialize network2 v2 name2 s1 = Ok tt s2' →
          var_init (sim s2') = v2) ∧
  ∃ s3 net3,
    RuntimeSimulator_run d p pn name1 s2 = Ok tt s3 ∧
    heap s3 !! network1 = Some net3 ∧
    current net3 =
      Network_advance d (apply_var_init v2 (Group_set_states p (current net1))).
Proof.
  intros Hne Hnet1 Hinit1 Hinit2.
  rewrite (initialize_sets_var_init _ _ _ _ _ (or_introl Hinit1)).
  rewrite (initialize_sets_var_init _ _ _ _ _ (or_introl Hinit2)).
  split; [done |]. split; [done |]. split.
  { intros s2' Hinit2'. exact (initialize_sets_var_init _ _ _ _ _ (or_intror Hinit2')). }
  assert (∀ network vi name net s s',
            heap s !! network = Some net →
            RuntimeSimulator_initialize network vi name s = Ok tt s' →
            s' = {| sim := {| networks := <[name := network]> (networks (sim s));
                              var_init := vi; params_init := params_init (sim s) |};
                    heap := <[network := {| objects := objects net; current := current net;
                                            stored := Some (current net) |}]> (heap s);
                    device := device s |} ∧ "neurons" ∈ objects net) as Hinv.
  { clear. intros network vi name net s s' Hnet Hinit.
    destruct (decide ("monitor" ∈ objects net ∧ "neurons" ∈ objects net))
      as [[Hm Hn]|Hmiss].
    - rewrite (RuntimeSimulator_initialize_ok _ vi name _ _ Hnet Hm Hn) in Hinit.
      by inversion Hinit.
    - apply not_and_l in Hmiss.
      by rewrite (proj1 (initialize_missing_role _ vi name _ _ Hnet Hmiss)) in Hinit. }
  destruct (Hinv _ _ _ _ _ _ Hnet1 Hinit1) as [-> Hneu1].
  destruct (heap {| sim := {| networks := <[name1 := network1]> (networks (sim s));
                              var_init := v1; params_init := params_init (sim s) |};
                    heap := <[network1 := {| objects := objects net1; current := current net1;
                                             stored := Some (current net1) |}]> (heap s);
                    device := device s |} !! network2) as [net2|] eqn:Hnet2.
  2: { by rewrite (proj1 (initialize_not_a_network _ v2 name2 _ Hnet2)) in Hinit2. }
  destruct (Hinv _ _ _ _ _ _ Hnet2 Hinit2) as [-> Hneu2].
  simpl in Hnet2.
  assert (∃ net, (<[network2 := {| objects := objects net2; current := current net2;
                                   stored := Some (current net2) |}]>
                    (<[network1 := {| objects := objects net1; current := current net1;
                                      stored := Some (current net1) |}]> (heap s)))
                   !! network1 = Some net ∧
                 objects net = objects net1 ∧ current net = current net1 ∧
                 stored net = Some (current net1)) as (net & Hl & Ho & Hc & Hs).
  { destruct (decide (network2 = network1)) as [->|Hne2].
    - rewrite lookup_insert_eq in Hnet2. inversion Hnet2; subst net2.
      rewrite lookup_insert_eq. by eexists.
    - rewrite lookup_insert_ne, lookup_insert_eq by done. by eexists. }
  eexists _, _. split.
  - eapply RuntimeSimulator_run_spec; simpl.
    + by rewrite lookup_insert_ne, lookup_insert_eq.
    + exact Hl.
    + exact Hs.
    + by rewrite Ho.
  - simpl. by rewrite lookup_insert_eq.
Qed.

(** ** Proofs: [CPPStandaloneSimulator.run], compiled *)

Lemma ignores_bind {A C} (m : M A) (k : A → M C) :
  ignores_var_init m → (∀ a, ignores_var_init (k a)) →
  ignores_var_init (bind m k).
Proof.
  intros Hm Hk vi s. unfold bind. rewrite Hm.
  destruct (m s) as [a s'|e s']; simpl; [apply Hk | done].
Qed.

Lemma ignores_for_each {A} (l : list A) (body : A → M unit) :
  (∀ x, ignores_var_init (body x)) → ignores_var_init (for_each l body).
Proof.
  intros Hbody. induction l as [|x l IH]; simpl; [done |].
  apply ignores_bind; [apply Hbody | done].
Qed.

Lemma ignores_set_states init_dict values :
  ignores_var_init (set_states init_dict values).
Proof.
  apply ignores_for_each. intros [obj_name obj_values].
  destruct (init_dict !! obj_name); [| done].
  intros vi s0. unfold set_parameter_value, tofile. simpl.
  by destruct (has_been_run (device s0)).
Qed.

Lemma set_states_cons init_dict obj_name obj_values values s :
  set_states init_dict ((obj_name, obj_values) :: values) s =
  (let* _ := match init_dict !! obj_name with
             | Some identifier => set_parameter_value identifier obj_values
             | None => raise (KeyError obj_name)
             end
   in set_states init_dict values) s.
Proof. reflexivity. Qed.

(** [set_states] writes files that [init_dict] addresses, and nothing
    else, also when it raises on the way. *)
Lemma set_states_frame init_dict values : ∀ s,
  let s' := final (set_states init_dict values s) in
  sim s' = sim s ∧ heap s' = heap s ∧
  has_been_run (device s') = has_been_run (device s) ∧
  main_queue (device s') = main_queue (device s) ∧
  static_arrays (device s') = static_arrays (device s) ∧
  builds (device s') = builds (device s) ∧
  launches (device s') = launches (device s) ∧
  ∀ file, ¬ addressed (Some init_dict) file →
    files (device s') !! file = files (device s) !! file.
Proof.
  induction values as [|[obj_name obj_values] values IH]; intros s.
  - done.
  - rewrite set_states_cons. unfold bind.
    destruct (init_dict !! obj_name) as [identifier|] eqn:Hid; [| done].
    unfold set_parameter_value, tofile.
    destruct (has_been_run (device s)) eqn:Hbuilt; [| simpl; by rewrite Hbuilt].
    specialize (IH (with_device (fun dv =>
      {| has_been_run := has_been_run dv; main_queue := main_queue dv;
         static_arrays := static_arrays dv;
         files := <[identifier := atleast_1d obj_values]> (files dv);
         builds := builds dv; launches := launches dv |}) s)).
    destruct IH as (Hs & Hh & Hr & Hq & Ha & Hb & Hl & Hfiles).
    simpl in Hs, Hh, Hr, Hq, Ha, Hb, Hl.
    rewrite Hs, Hh, Hr, Hq, Ha, Hb, Hl, Hbuilt.
    repeat (split; [done |]). intros file Hfile.
    rewrite Hfiles by done. apply lookup_insert_ne. intros ->.
    apply Hfile. by exists init_dict, obj_name.
Qed.

Lemma CPPStandaloneSimulator_rerun d p pn name network init_dict s :
  has_been_run (device s) = true →
  networks (sim s) !! name = Some network →
  params_init (sim s) = Some init_dict →
  CPPStandaloneSimulator_run d p pn name s =
    (let* _ := set_states init_dict p in run_again) s.
Proof.
  intros Hrun Hname Hpi. unfold CPPStandaloneSimulator_run.
  rewrite (bind_Ok _ _ _ _ _ (get_network_ok _ _ _ Hname)).
  unfold bind at 1. unfold device_has_been_run, gets. rewrite Hrun. simpl.
  unfold bind at 1. unfold get_params_init. by rewrite Hpi.
Qed.

Lemma CPPStandaloneSimulator_run_no_params_init d p pn name network s :
  has_been_run (device s) = true →
  networks (sim s) !! name = Some network →
  params_init (sim s) = None →
  CPPStandaloneSimulator_run d p pn name s =
    Raise (AttributeError "params_init") s.
Proof.
  intros Hrun Hname Hpi. unfold CPPStandaloneSimulator_run.
  rewrite (bind_Ok _ _ _ _ _ (get_network_ok _ _ _ Hname)).
  unfold bind at 1. unfold device_has_been_run, gets. rewrite Hrun. simpl.
  unfold bind at 1. unfold get_params_init. by rewrite Hpi.
Qed.

Lemma CPPStandaloneSimulator_run_unregistered d p pn name s :
  networks (sim s) !! name = None →
  CPPStandaloneSimulator_run d p pn name s = Raise (KeyError name) s.
Proof.
  intros Hname. unfold CPPStandaloneSimulator_run.
  by rewrite (bind_Raise _ _ _ _ _ (get_network_unregistered _ _ Hname)).
Qed.

(** On the compiled path a [run] leaves everything but the addressed
    files and the count of executions as it was. *)
Lemma CPPStandaloneSimulator_run_compiled_frame d p pn name s :
  has_been_run (device s) = true →
  let r := CPPStandaloneSimulator_run d p pn name s in
  sim (final r) = sim s ∧ heap (final r) = heap s ∧
  has_been_run (device (final r)) = true ∧
  main_queue (device (final r)) = main_queue (device s) ∧
  static_arrays (device (final r)) = static_arrays (device s) ∧
  builds (device (final r)) = builds (device s) ∧
  (∀ file, ¬ addressed (params_init (sim s)) file →
     files (device (final r)) !! file = files (device s) !! file) ∧
  launches (device (final r)) =
    match r with
    | Ok _ _ => S (launches (device s))
    | Raise _ _ => launches (device s)
    end.
Proof.
  intros Hrun. simpl.
  destruct (networks (sim s) !! name) as [network|] eqn:Hname.
  2: { by rewrite (CPPStandaloneSimulator_run_unregistered _ _ _ _ _ Hname). }
  destruct (params_init (sim s)) as [init_dict|] eqn:Hpi.
  2: { by rewrite (CPPStandaloneSimulator_run_no_params_init _ _ _ _ _ _ Hrun Hname Hpi). }
  rewrite (CPPStandaloneSimulator_rerun _ _ _ _ _ _ _ Hrun Hname Hpi).
  pose proof (set_states_frame init_dict p s) as Hframe. simpl in Hframe.
  unfold bind. destruct (set_states init_dict p s) as [[] s'|e s']; simpl in *.
  - destruct Hframe as (-> & -> & _ & -> & -> & -> & -> & Hfiles). done.
  - destruct Hframe as (-> & -> & -> & -> & -> & -> & -> & Hfiles). done.
Qed.

Lemma CPPStandaloneSimulator_run_ignores_var_init d p pn name s :
  has_been_run (device s) = true →
  ∀ vi, CPPStandaloneSimulator_run d p pn name (replace_var_init vi s) =
        on_final (replace_var_init vi) (CPPStandaloneSimulator_run d p pn name s).
Proof.
  intros Hrun vi.
  destruct (networks (sim s) !! name) as [network|] eqn:Hname.
  2: { by rewrite !CPPStandaloneSimulator_run_unregistered. }
  destruct (params_init (sim s)) as [init_dict|] eqn:Hpi.
  2: { by rewrite !(CPPStandaloneSimulator_run_no_params_init _ _ _ _ network). }
  rewrite !(CPPStandaloneSimulator_rerun _ _ _ _ network init_dict) by done.
  apply ignores_bind; [apply ignores_set_states | done].
Qed.

Lemma CPPStandaloneSimulator_initialize_frame network vi name s :
  let r := CPPStandaloneSimulator_initialize network vi name s in
  heap (final r) = heap s ∧ device (final r) = device s ∧
  params_init (sim (final r)) = params_init (sim s).
Proof.
  simpl. destruct (heap s !! network) as [net|] eqn:Hnet.
  - destruct (decide ("monitor" ∈ objects net ∧ "neurons" ∈ objects net))
      as [[Hm Hn]|Hmiss].
    + by rewrite (CPPStandaloneSimulator_initialize_ok _ vi name _ _ Hnet Hm Hn).
    + apply not_and_l in Hmiss.
      by rewrite (proj2 (initialize_missing_role _ vi name _ _ Hnet Hmiss)).
  - by rewrite (proj2 (initialize_not_a_network _ vi name _ Hnet)).
Qed.

(** ** Proofs: [CPPStandaloneSimulator.run], first run *)

Lemma initialize_neurons_from_spec neurons params : ∀ params_names acc s,
  (∀ name, name ∈ params_names → is_Some (dict_get params name)) →
  ∃ init_dict queued arrays,
    initialize_neurons_from acc params_names neurons params s =
      Ok init_dict
        {| sim := sim s; heap := heap s;
           device := {| has_been_run := has_been_run (device s);
                        main_queue := main_queue (device s) ++ queued;
                        static_arrays := arrays;
                        files := files (device s);
                        builds := builds (device s);
                        launches := launches (device s) |} |} ∧
    dom init_dict = dom acc ∪ list_to_set params_names ∧
    Forall is_set_by_array queued ∧
    length queued = length params_names.
Proof.
  induction params_names as [|name rest IH]; intros acc s Hin.
  - exists acc, [], (static_arrays (device s)). simpl. unfold ret.
    rewrite app_nil_r. destruct s as [sm h []]. simpl.
    split; [done |]. split; [set_solver | done].
  - destruct (Hin name) as [value Hvalue]; [set_solver |].
    simpl. unfold bind at 1. unfold neurons_getattr, ret.
    unfold bind at 1. unfold dict_getitem. rewrite Hvalue. unfold ret.
    unfold bind at 1. unfold initialize_parameter.
    unfold bind at 1. unfold device_static_array.
    unfold bind at 1. unfold main_queue_append, modify, ret.
    set (static_name := static_array_name (static_arrays (device s)) (get_array_name (neurons, name))).
    match goal with |- context [initialize_neurons_from ?acc' rest neurons params ?s'] =>
      destruct (IH acc' s') as (init_dict & queued & arrays & -> & Hdom & Hq & Hlen)
    end.
    { intros name' Hin'. apply Hin. set_solver. }
    exists init_dict, (set_by_array (get_array_name (neurons, name)) static_name false :: queued), arrays.
    simpl. rewrite <- app_assoc. simpl.
    split; [done |]. split.
    + rewrite Hdom, dom_insert_L. set_solver.
    + split; [by constructor | by rewrite Hlen].
Qed.

Lemma standalone_var_init_loop network net d : ∀ s,
  heap s !! network = Some net → "neurons" ∈ objects net →
  for_each d (fun '(k, v) =>
    let* neurons := Network_getitem network "neurons" in
    standalone_setattr neurons k v) s =
  Ok tt
    {| sim := sim s; heap := heap s;
       device := {| has_been_run := has_been_run (device s);
                    main_queue := main_queue (device s) ++ var_init_items (Some d);
                    static_arrays := static_arrays (device s);
                    files := files (device s);
                    builds := builds (device s);
                    launches := launches (device s) |} |}.
Proof.
  induction d as [|[k v] d IH]; intros s Hnet Hneu; simpl.
  - unfold ret. rewrite app_nil_r. by destruct s as [sm h []].
  - unfold bind at 1.
    rewrite (bind_Ok _ _ _ _ _ (Network_getitem_ok _ _ _ _ Hnet Hneu)).
    unfold standalone_setattr, main_queue_append, modify.
    rewrite IH by done. simpl. by rewrite <- app_assoc.
Qed.

Lemma CPPStandaloneSimulator_first_run d p pn name network net s :
  has_been_run (device s) = false →
  networks (sim s) !! name = Some network →
  heap s !! network = Some net →
  "neurons" ∈ objects net →
  (∀ name, name ∈ pn → is_Some (dict_get p name)) →
  ∃ init_dict queued arrays,
    CPPStandaloneSimulator_run d p pn name s =
      Ok tt
        {| sim := {| networks := networks (sim s);
                     var_init := var_init (sim s);
                     params_init := Some init_dict |};
           heap := heap s;
           device := {| has_been_run := true;
                        main_queue :=
                          main_queue (device s) ++ queued ++
                          var_init_items (var_init (sim s)) ++
                          [run_network network d];
                        static_arrays := arrays;
                        files := arrays ∪ files (device s);
                        builds := S (builds (device s));
                        launches := S (launches (device s)) |} |} ∧
    dom init_dict = list_to_set pn ∧
    Forall is_set_by_array queued ∧
    length queued = length pn.
Proof.
  intros Hrun Hname Hnet Hneu Hin.
  destruct (initialize_neurons_from_spec network p pn ∅ s Hin)
    as (init_dict & queued & arrays & Hinit & Hdom & Hq & Hlen).
  exists init_dict, queued, arrays. split.
  - unfold CPPStandaloneSimulator_run.
    rewrite (bind_Ok _ _ _ _ _ (get_network_ok _ _ _ Hname)).
    unfold bind at 1. unfold device_has_been_run, gets. rewrite Hrun. simpl.
    rewrite (bind_Ok _ _ _ _ _ (Network_getitem_ok _ _ _ _ Hnet Hneu)).
    unfold initialize_neurons. rewrite (bind_Ok _ _ _ _ _ Hinit).
    unfold bind at 1. unfold set_params_init, modify.
    unfold bind at 1. unfold gets. simpl.
    destruct (var_init (sim s)) as [vi|] eqn:Hvi; simpl.
    + erewrite bind_Ok; [| by eapply standalone_var_init_loop].
      unfold standalone_network_run, modify, with_device. simpl.
      by rewrite <- !app_assoc, Hvi.
    + unfold bind, ret, standalone_network_run, modify, with_device. simpl.
      by rewrite <- !app_assoc, Hvi.
  - split; [| done]. rewrite Hdom. set_solver.
Qed.

Lemma cpp_exec_compiled_frame c s :
  has_been_run (device s) = true →
  let r := cpp_exec c s in
  has_been_run (device (final r)) = true ∧
  builds (device (final r)) = builds (device s) ∧
  main_queue (device (final r)) = main_queue (device s) ∧
  static_arrays (device (final r)) = static_arrays (device s) ∧
  heap (final r) = heap s ∧
  params_init (sim (final r)) = params_init (sim s) ∧
  (∀ file, ¬ addressed (params_init (sim s)) file →
     files (device (final r)) !! file = files (device s) !! file) ∧
  launches (device (final r)) =
    match c, r with
    | call_run _ _ _ _, Ok _ _ => 1
    | _, _ => 0
    end + launches (device s).
Proof.
  intros Hrun. destruct c as [network vi name|d p pn name]; simpl.
  - destruct (CPPStandaloneSimulator_initialize_frame network vi name s)
      as (-> & -> & ->).
    by destruct (CPPStandaloneSimulator_initialize network vi name s).
  - destruct (CPPStandaloneSimulator_run_compiled_frame d p pn name s Hrun)
      as (-> & -> & -> & -> & -> & -> & Hfiles & ->).
    by destruct (CPPStandaloneSimulator_run d p pn name s).
Qed.

Lemma exec_all_compiled_frame calls : ∀ s,
  has_been_run (device s) = true →
  let s' := exec_all cpp_exec calls s in
  has_been_run (device s') = true ∧
  builds (device s') = builds (device s) ∧
  main_queue (device s') = main_queue (device s) ∧
  static_arrays (device s') = static_arrays (device s) ∧
  heap s' = heap s ∧
  params_init (sim s') = params_init (sim s) ∧
  (∀ file, ¬ addressed (params_init (sim s)) file →
     files (device s') !! file = files (device s) !! file) ∧
  launches (device s') = completed_runs calls s + launches (device s).
Proof.
  induction calls as [|c calls IH]; intros s Hrun; simpl; [done |].
  destruct (cpp_exec_compiled_frame c s Hrun)
    as (Hrun' & Hb & Hq & Ha & Hh & Hpi & Hfiles & Hl).
  destruct (IH _ Hrun') as (-> & -> & -> & -> & -> & -> & Hfiles' & ->).
  rewrite Hpi in Hfiles'.
  repeat (split; [done |]). split.
  - intros file Hfile. by rewrite Hfiles', Hfiles.
  - rewrite Hl. destruct c; simpl; lia.
Qed.

(** ** Proofs: [set_states] and the files *)

Lemma for_each_app {A} (l1 l2 : list A) (body : A → M unit) s :
  for_each (l1 ++ l2) body s =
  (let* _ := for_each l1 body in for_each l2 body) s.
Proof.
  revert s. induction l1 as [|x l1 IH]; intros s; simpl; [done |].
  unfold bind in *. destruct (body x s) as [[] s'|e s']; [| done].
  apply IH.
Qed.

Lemma with_files_twice f g s :
  with_files g (with_files f s) = with_files (g ∘ f) s.
Proof. done. Qed.

Lemma written_snoc init_dict values obj_name obj_values fs :
  written init_dict (values ++ [(obj_name, obj_values)]) fs =
  match init_dict !! obj_name with
  | Some identifier =>
      <[identifier := atleast_1d obj_values]> (written init_dict values fs)
  | None => written init_dict values fs
  end.
Proof. unfold written. by rewrite foldl_snoc. Qed.

Lemma set_states_ok init_dict values : ∀ s,
  has_been_run (device s) = true →
  (∀ obj_name obj_values, (obj_name, obj_values) ∈ values →
     is_Some (init_dict !! obj_name)) →
  set_states init_dict values s =
    Ok tt (with_files (written init_dict values) s).
Proof.
  induction values as [|[obj_name obj_values] values IH]; intros s Hbuilt Hin.
  - by destruct s as [sm h []].
  - rewrite set_states_cons.
    destruct (Hin obj_name obj_values) as [identifier Hid]; [left |].
    rewrite Hid. unfold bind, set_parameter_value, tofile. rewrite Hbuilt.
    rewrite IH.
    + unfold written. simpl. by rewrite Hid.
    + done.
    + intros k v Hkv. apply (Hin k v). by right.
Qed.

(** On a device that has not been built the first write fails. *)
Lemma set_states_not_built init_dict obj_name obj_values identifier values s :
  has_been_run (device s) = false →
  init_dict !! obj_name = Some identifier →
  set_states init_dict ((obj_name, obj_values) :: values) s =
    Raise (TypeError "expected str, bytes or os.PathLike object, not NoneType") s.
Proof.
  intros Hbuilt Hid. rewrite set_states_cons, Hid.
  unfold bind, set_parameter_value, tofile. by rewrite Hbuilt.
Qed.

Lemma written_holds init_dict values : ∀ fs obj_name obj_values identifier,
  (obj_name, obj_values) ∈ values →
  init_dict !! obj_name = Some identifier →
  (∀ obj_name' obj_values', (obj_name', obj_values') ∈ values →
     init_dict !! obj_name' = Some identifier → obj_values' = obj_values) →
  written init_dict values fs !! identifier = Some (atleast_1d obj_values).
Proof.
  induction values as [|[k v] values IH] using rev_ind;
    intros fs obj_name obj_values identifier Hmem Hid Hsame.
  - by apply elem_of_nil in Hmem.
  - rewrite written_snoc.
    destruct (init_dict !! k) as [identifier'|] eqn:Hk.
    + destruct (decide (identifier' = identifier)) as [->|Hne].
      * rewrite lookup_insert_eq.
        rewrite (Hsame k v); [done | | done].
        apply elem_of_app. right. by left.
      * rewrite lookup_insert_ne by done.
        apply elem_of_app in Hmem as [Hmem|Hmem].
        -- apply (IH fs obj_name); [done | done |].
           intros k' v' Hmem'. apply (Hsame k' v'). apply elem_of_app. by left.
        -- apply list_elem_of_singleton in Hmem as [= -> ->]. congruence.
    + apply elem_of_app in Hmem as [Hmem|Hmem].
      * apply (IH fs obj_name); [done | done |].
        intros k' v' Hmem'. apply (Hsame k' v'). apply elem_of_app. by left.
      * apply list_elem_of_singleton in Hmem as [= -> ->]. congruence.
Qed.

Lemma written_elsewhere init_dict values : ∀ fs file,
  (∀ obj_name obj_values, (obj_name, obj_values) ∈ values →
     init_dict !! obj_name ≠ Some file) →
  written init_dict values fs !! file = fs !! file.
Proof.
  induction values as [|[k v] values IH] using rev_ind; intros fs file Hfile.
  - done.
  - rewrite written_snoc.
    assert (written init_dict values fs !! file = fs !! file) as Hrec.
    { apply IH. intros k' v' Hmem'. apply (Hfile k' v'). apply elem_of_app. by left. }
    destruct (init_dict !! k) as [identifier'|] eqn:Hk; [| done].
    rewrite lookup_insert_ne; [done |]. intros ->.
    apply (Hfile k v); [| done]. apply elem_of_app. right. by left.
Qed.

Lemma set_states_missing init_dict before obj_name obj_values after s :
  has_been_run (device s) = true →
  (∀ k v, (k, v) ∈ before → is_Some (init_dict !! k)) →
  init_dict !! obj_name = None →
  set_states init_dict (before ++ (obj_name, obj_values) :: after) s =
    Raise (KeyError obj_name) (with_files (written init_dict before) s).
Proof.
  intros Hbuilt Hbefore Hmissing. unfold set_states at 1. rewrite for_each_app.
  fold (set_states init_dict before).
  rewrite (bind_Ok _ _ _ _ _ (set_states_ok init_dict before s Hbuilt Hbefore)).
  simpl. unfold bind. by rewrite Hmissing.
Qed.

Lemma initialize_neurons_from_queues neurons params : ∀ params_names acc s,
  (∀ name, name ∈ params_names → is_Some (dict_get params name)) →
  ∃ init_dict queued arrays,
    initialize_neurons_from acc params_names neurons params s =
      Ok init_dict
        {| sim := sim s; heap := heap s;
           device := {| has_been_run := has_been_run (device s);
                        main_queue := main_queue (device s) ++ queued;
                        static_arrays := arrays;
                        files := files (device s);
                        builds := builds (device s);
                        launches := launches (device s) |} |} ∧
    (∀ name, name ∉ params_names → init_dict !! name = acc !! name) ∧
    (∀ name, name ∈ params_names →
       ∃ identifier,
         init_dict !! name = Some identifier ∧
         set_by_array (get_array_name (neurons, name)) identifier false ∈ queued ∧
         is_Some (arrays !! identifier)) ∧
    (∀ identifier, is_Some (static_arrays (device s) !! identifier) →
                   is_Some (arrays !! identifier)) ∧
    Forall is_set_by_array queued ∧
    length queued = length params_names.
Proof.
  induction params_names as [|name rest IH]; intros acc s Hin.
  - exists acc, [], (static_arrays (device s)). simpl. unfold ret.
    rewrite app_nil_r. destruct s as [sm h []]. simpl.
    split; [done |]. split; [done |]. split; [| done].
    intros name Hname. by apply elem_of_nil in Hname.
  - destruct (Hin name) as [value Hvalue]; [by left |].
    simpl initialize_neurons_from. unfold bind at 1. unfold neurons_getattr, ret.
    unfold bind at 1. unfold dict_getitem. rewrite Hvalue. unfold ret.
    unfold bind at 1. unfold initialize_parameter.
    unfold bind at 1. unfold device_static_array.
    unfold bind at 1. unfold main_queue_append, modify, ret.
    set (static_name :=
           static_array_name (static_arrays (device s)) (get_array_name (neurons, name))).
    match goal with |- context [initialize_neurons_from ?acc' rest neurons params ?s'] =>
      destruct (IH acc' s')
        as (init_dict & queued & arrays & -> & Hother & Hlisted & Hgrow & Hq & Hlen)
    end.
    { intros name' Hin'. apply Hin. by right. }
    exists init_dict,
      (set_by_array (get_array_name (neurons, name)) static_name false :: queued),
      arrays.
    simpl. rewrite <- app_assoc. simpl.
    split; [done |]. split; [| split; [| split; [| split]]].
    + intros name' Hname'. apply not_elem_of_cons in Hname' as [Hne Hname'].
      rewrite Hother by done. by rewrite lookup_insert_ne.
    + intros name' Hname'.
      destruct (decide (name' ∈ rest)) as [Hrest|Hrest].
      * destruct (Hlisted name' Hrest) as (identifier & Hid & Hmem & Hsome).
        exists identifier. split; [done |]. split; [by right | done].
      * apply elem_of_cons in Hname' as [->|Hname']; [| done].
        exists static_name. split; [| split].
        -- rewrite Hother by done. apply lookup_insert_eq.
        -- by left.
        -- apply Hgrow. simpl. rewrite lookup_insert_eq. by eexists.
    + intros identifier Hsome. apply Hgrow. simpl.
      rewrite lookup_insert_is_Some.
      destruct (decide (static_name = identifier)); eauto.
    + by constructor.
    + by rewrite Hlen.
Qed.

Lemma CPPStandaloneSimulator_first_run_queues d p pn name network net s :
  has_been_run (device s) = false →
  networks (sim s) !! name = Some network →
  heap s !! network = Some net →
  "neurons" ∈ objects net →
  (∀ name, name ∈ pn → is_Some (dict_get p name)) →
  ∃ init_dict queued arrays,
    CPPStandaloneSimulator_run d p pn name s =
      Ok tt
        {| sim := {| networks := networks (sim s);
                     var_init := var_init (sim s);
                     params_init := Some init_dict |};
           heap := heap s;
           device := {| has_been_run := true;
                        main_queue :=
                          main_queue (device s) ++ queued ++
                          var_init_items (var_init (sim s)) ++
                          [run_network network d];
                        static_arrays := arrays;
                        files := arrays ∪ files (device s);
                        builds := S (builds (device s));
                        launches := S (launches (device s)) |} |} ∧
    dom init_dict = list_to_set pn ∧
    Forall is_set_by_array queued ∧
    length queued = length pn ∧
    ∀ name, name ∈ pn →
      ∃ identifier,
        init_dict !! name = Some identifier ∧
        set_by_array (get_array_name (network, name)) identifier false ∈ queued ∧
        is_Some (arrays !! identifier).
Proof.
  intros Hrun Hname Hnet Hneu Hin.
  destruct (initialize_neurons_from_queues network p pn ∅ s Hin)
    as (init_dict & queued & arrays & Hinit & Hother & Hlisted & _ & Hq & Hlen).
  exists init_dict, queued, arrays. split.
  - unfold CPPStandaloneSimulator_run.
    rewrite (bind_Ok _ _ _ _ _ (get_network_ok _ _ _ Hname)).
    unfold bind at 1. unfold device_has_been_run, gets. rewrite Hrun. simpl.
    rewrite (bind_Ok _ _ _ _ _ (Network_getitem_ok _ _ _ _ Hnet Hneu)).
    unfold initialize_neurons. rewrite (bind_Ok _ _ _ _ _ Hinit).
    unfold bind at 1. unfold set_params_init, modify.
    unfold bind at 1. unfold gets. simpl.
    destruct (var_init (sim s)) as [vi|] eqn:Hvi; simpl.
    + erewrite bind_Ok; [| by eapply standalone_var_init_loop].
      unfold standalone_network_run, modify, with_device. simpl.
      by rewrite <- !app_assoc, Hvi.
    + unfold bind, ret, standalone_network_run, modify, with_device. simpl.
      by rewrite <- !app_assoc, Hvi.
  - split; [| done]. apply set_eq. intros name'.
    rewrite elem_of_dom, elem_of_list_to_set. split.
    + intros [identifier Hid]. destruct (decide (name' ∈ pn)); [done |].
      rewrite Hother, lookup_empty in Hid by done. done.
    + intros Hname'. destruct (Hlisted name' Hname') as (identifier & -> & _). eauto.
Qed.

(** C2. The first [run] of a [CPPStandaloneSimulator] (the device has not
    been run, the name is registered, every name of [params_names] is a key
    of [params]) initializes the parameters: for every name it keeps a
    static array on the device, records its identifier in [params_init]
    and queues the [set_by_array] that loads it; it then generates the code
    once, which writes the static arrays to their files, and leaves the
    device compiled.  Whatever calls follow, the device stays compiled and
    no code is generated again: the program and the static arrays stay as
    they are, only files that [params_init] addresses are written, and the
    program is executed once per completed [run].  A later [run] on a
    registered name whose [params] are among the first run's names
    succeeds: it overwrites the files that [params_init] gives for its
    parameters with their values and executes the program once more. *)
Theorem cpp_compiles_once d p pn name network net s :
  has_been_run (device s) = false →
  networks (sim s) !! name = Some network →
  heap s !! network = Some net →
  "neurons" ∈ objects net →
  (∀ name, name ∈ pn → is_Some (dict_get p name)) →
  ∃ s1 init_dict,
    CPPStandaloneSimulator_run d p pn name s = Ok tt s1 ∧
    params_init (sim s1) = Some init_dict ∧
    dom init_dict = list_to_set pn ∧
    has_been_run (device s1) = true ∧
    builds (device s1) = S (builds (device s)) ∧
    (∃ queued,
       main_queue (device s1) =
         main_queue (device s) ++ queued ++
         var_init_items (var_init (sim s)) ++ [run_network network d] ∧
       Forall is_set_by_array queued ∧
       length queued = length pn ∧
       ∀ name, name ∈ pn →
         ∃ identifier,
           init_dict !! name = Some identifier ∧
           set_by_array (get_array_name (network, name)) identifier false ∈ queued ∧
           is_Some (static_arrays (device s1) !! identifier) ∧
           is_Some (files (device s1) !! identifier)) ∧
    ∀ calls,
      let s2 := exec_all cpp_exec calls s1 in
      has_been_run (device s2) = true ∧
      builds (device s2) = builds (device s1) ∧
      main_queue (device s2) = main_queue (device s1) ∧
      static_arrays (device s2) = static_arrays (device s1) ∧
      params_init (sim s2) = Some init_dict ∧
      (∀ file, (∀ name, init_dict !! name ≠ Some file) →
         files (device s2) !! file = files (device s1) !! file) ∧
      launches (device s2) = completed_runs calls s1 + launches (device s1) ∧
      ∀ d' p' pn' name',
        is_Some (networks (sim s2) !! name') →
        (∀ k v, (k, v) ∈ p' → k ∈ pn) →
        ∃ s3,
          CPPStandaloneSimulator_run d' p' pn' name' s2 = Ok tt s3 ∧
          builds (device s3) = builds (device s1) ∧
          main_queue (device s3) = main_queue (device s1) ∧
          launches (device s3) = S (launches (device s2)) ∧
          files (device s3) = written init_dict p' (files (device s2)) ∧
          ∀ k v identifier,
            (k, v) ∈ p' →
            init_dict !! k = Some identifier →
            (∀ k' v', (k', v') ∈ p' → init_dict !! k' = Some identifier → v' = v) →
            files (device s3) !! identifier = Some (atleast_1d v).
Proof.
  intros Hrun Hname Hnet Hneu Hin.
  destruct (CPPStandaloneSimulator_first_run_queues d p pn name _ _ _
              Hrun Hname Hnet Hneu Hin)
    as (init_dict & queued & arrays & -> & Hdom & Hq & Hlen & Hlisted).
  eexists _, init_dict. split; [reflexivity |]. simpl.
  repeat (split; [done |]). split.
  { exists queued. repeat (split; [done |]). intros name' Hname'.
    destruct (Hlisted name' Hname') as (identifier & Hid & Hmem & Hsome).
    exists identifier. repeat (split; [done |]).
    apply lookup_union_is_Some. by left. }
  intros calls.
  match goal with |- context [exec_all cpp_exec calls ?s1] =>
    pose proof (exec_all_compiled_frame calls s1 eq_refl) as Hframe;
    set (s2 := exec_all cpp_exec calls s1) in *
  end.
  simpl in Hframe.
  destruct Hframe as (Hrun2 & Hb2 & Hq2 & Ha2 & _ & Hpi2 & Hfiles & Hl2).
  repeat (split; [done |]). split; [| split; [done |]].
  { intros file Hfile. apply Hfiles. intros (d' & name' & [= <-] & Hlook).
    by apply (Hfile name'). }
  intros d' p' pn' name' [network' Hname'] Hkeys.
  rewrite (CPPStandaloneSimulator_rerun d' p' pn' name' network' init_dict s2
             Hrun2 Hname' Hpi2).
  rewrite (bind_Ok _ _ _ _ _ (set_states_ok init_dict p' s2 Hrun2
    (fun k v Hmem =>
       proj1 (elem_of_dom init_dict k)
         (eq_ind_r (fun X => k ∈ X)
            (proj2 (elem_of_list_to_set k pn) (Hkeys k v Hmem)) Hdom)))).
  eexists. split; [reflexivity |]. simpl.
  repeat (split; [done |]). apply written_holds.
Qed.

(** C3. On the compiled path a [run] does not apply [var_init]: its outcome
    is the same whatever [var_init] holds, the networks and the program are
    left as they are, and only files that [params_init] addresses are
    written.  The first run did queue the [var_init] assignments, and
    [RuntimeSimulator.run] applies [var_init] every time. *)
Theorem compiled_rerun_skips_var_init d p pn name s :
  has_been_run (device s) = true →
  let r := CPPStandaloneSimulator_run d p pn name s in
  (∀ vi, CPPStandaloneSimulator_run d p pn name (replace_var_init vi s) =
         on_final (replace_var_init vi) r) ∧
  heap (final r) = heap s ∧
  main_queue (device (final r)) = main_queue (device s) ∧
  static_arrays (device (final r)) = static_arrays (device s) ∧
  (∀ file, ¬ addressed (params_init (sim s)) file →
     files (device (final r)) !! file = files (device s) !! file) ∧
  (∀ s0 network net,
     has_been_run (device s0) = false →
     networks (sim s0) !! name = Some network →
     heap s0 !! network = Some net →
     "neurons" ∈ objects net →
     (∀ name, name ∈ pn → is_Some (dict_get p name)) →
     ∃ s1 queued,
       CPPStandaloneSimulator_run d p pn name s0 = Ok tt s1 ∧
       Forall is_set_by_array queued ∧
       main_queue (device s1) =
         main_queue (device s0) ++ queued ++
         var_init_items (var_init (sim s0)) ++ [run_network network d]) ∧
  (∀ s0 network net st,
     networks (sim s0) !! name = Some network →
     heap s0 !! network = Some net →
     stored net = Some st →
     "neurons" ∈ objects net →
     ∃ s1 net1,
       RuntimeSimulator_run d p pn name s0 = Ok tt s1 ∧
       heap s1 !! network = Some net1 ∧
       current net1 =
         Network_advance d
           (apply_var_init (var_init (sim s0)) (Group_set_states p st))).
Proof.
  intros Hrun r. subst r.
  destruct (CPPStandaloneSimulator_run_compiled_frame d p pn name s Hrun)
    as (_ & Hh & _ & Hq & Ha & _ & Hfiles & _).
  split; [by apply CPPStandaloneSimulator_run_ignores_var_init |].
  repeat (split; [done |]). split.
  - intros s0 network net Hrun0 Hname Hnet Hneu Hin.
    destruct (CPPStandaloneSimulator_first_run d p pn name _ _ _ Hrun0 Hname Hnet Hneu Hin)
      as (init_dict & queued & arrays & -> & _ & Hqueued & _).
    by eexists _, queued.
  - intros s0 network net st Hname Hnet Hst Hneu.
    rewrite (RuntimeSimulator_run_spec d p pn _ _ _ _ _ Hname Hnet Hst Hneu).
    eexists _, _. split; [reflexivity |]. split; [apply heap_insert_lookup | done].
Qed.

(** C10. With the device already run and [params_init] never assigned on
    this simulator, a [run] on a registered name raises the
    [AttributeError] of [self.params_init].  No call on this simulator
    assigns the attribute from then on, so every later [run] fails the
    same way. *)
Theorem rerun_before_first_run_fails s :
  has_been_run (device s) = true →
  params_init (sim s) = None →
  ∀ calls,
    let s' := exec_all cpp_exec calls s in
    params_init (sim s') = None ∧
    ∀ d p pn name,
      is_Some (networks (sim s') !! name) →
      CPPStandaloneSimulator_run d p pn name s' =
        Raise (AttributeError "params_init") s'.
Proof.
  intros Hrun Hpi calls.
  destruct (exec_all_compiled_frame calls s Hrun)
    as (Hrun' & _ & _ & _ & _ & Hpi' & _ & _).
  simpl. rewrite Hpi in Hpi'. split; [done |].
  intros d p pn name [network Hname].
  by apply (CPPStandaloneSimulator_run_no_params_init _ _ _ _ network).
Qed.

End SimulatorProofs.

(** ** The theorems on the integrator *)

Example runtime_run_twice :
  output_trace "fit"
    (exec_all runtime_exec [call_run 3 [("v", 10%Z)] ["v"] "fit"] runtime_fit) =
    Some [12; 14; 16]%Z ∧
  output_trace "fit"
    (exec_all runtime_exec
       [call_run 3 [("v", 10%Z)] ["v"] "fit";
        call_run 3 [("v", 10%Z)] ["v"] "fit"] runtime_fit) =
    Some [12; 14; 16]%Z.
Proof. split; vm_compute; reflexivity. Qed.

Lemma runtime_run_reproducible_witness :
  ∃ network net st s1 s2,
    networks (sim runtime_fit) !! "fit" = Some network ∧
    heap runtime_fit !! network = Some net ∧ stored net = Some st ∧
    RuntimeSimulator_run 3 [("v", 10%Z)] ["v"] "fit" runtime_fit = Ok tt s1 ∧
    RuntimeSimulator_run 3 [("v", 10%Z)] ["v"] "fit" s1 = Ok tt s2 ∧
    s2 = s1 ∧
    output_trace "fit" s2 = output_trace "fit" s1 ∧
    output_trace "fit" s1 =
      Some (Monitor_record (Network_advance 3
              (apply_var_init (var_init (sim runtime_fit))
                 (Group_set_states [("v", 10%Z)] st)))).
Proof.
  apply (runtime_run_reproducible (B := integrator) 3 [("v", 10%Z)] ["v"] "fit" runtime_fit).
  - unfold runtime_fit. apply reachable_call, reachable_new.
  - vm_compute. eauto.
Defined.

Lemma initialize_requires_roles_witness :
  (RuntimeSimulator_initialize 2%positive None "fit" new_state =
     Raise role_error new_state ∧
   CPPStandaloneSimulator_initialize 2%positive None "fit" new_state =
     Raise role_error new_state) ∧
  ∃ s1 s2,
    RuntimeSimulator_initialize 1%positive None "fit" new_state = Ok tt s1 ∧
    networks (sim s1) !! "fit" = Some 1%positive ∧
    CPPStandaloneSimulator_initialize 1%positive None "fit" new_state = Ok tt s2 ∧
    networks (sim s2) !! "fit" = Some 1%positive.
Proof.
  split.
  - apply (initialize_requires_roles (B := integrator) 2%positive None "fit" no_monitor new_state).
    + reflexivity.
    + left. apply (bool_decide_unpack _). vm_compute. exact I.
  - apply (initialize_requires_roles (B := integrator) 1%positive None "fit" a_network new_state).
    + reflexivity.
    + split; apply (bool_decide_unpack _); vm_compute; exact I.
Defined.

Lemma var_init_is_shared_witness :
  ∃ s3 net3,
    RuntimeSimulator_run 3 [("v", 10%Z)] ["v"] "fit" runtime_other = Ok tt s3 ∧
    heap s3 !! 1%positive = Some net3 ∧
    recorded (current net3) = [17; 24; 31]%Z.
Proof.
  destruct (var_init_is_shared (B := integrator) 1%positive 3%positive
              (Some [("I", 2%Z)]) (Some [("I", 7%Z)]) "fit" "other" a_network
              3 [("v", 10%Z)] ["v"] new_state runtime_fit runtime_other)
    as (_ & _ & _ & s3 & net3 & Hrun & Hnet3 & Hcur).
  - discriminate.
  - reflexivity.
  - reflexivity.
  - reflexivity.
  - exists s3, net3. split; [exact Hrun |].
    split; [exact Hnet3 |]. rewrite Hcur. reflexivity.
Defined.

Lemma cpp_compiles_once_witness :
  has_been_run (device cpp_fit) = false ∧
  has_been_run (device cpp_compiled) = true ∧
  builds (device cpp_compiled) = 1 ∧
  builds (device (exec_all cpp_exec two_reruns cpp_compiled)) = 1 ∧
  launches (device (exec_all cpp_exec two_reruns cpp_compiled)) = 3 ∧
  ∃ identifier s3,
    set_by_array (get_array_name (1%positive, "v")) identifier false
      ∈ main_queue (device cpp_compiled) ∧
    is_Some (files (device cpp_compiled) !! identifier) ∧
    CPPStandaloneSimulator_run five_steps v_20 [] "fit" cpp_compiled = Ok tt s3 ∧
    files (device s3) !! identifier = Some 20%Z ∧
    launches (device s3) = 2.
Proof.
  destruct (cpp_compiles_once (B := integrator) 3 [("v", 10%Z)] ["v"] "fit" 1%positive a_network cpp_fit)
    as (s1 & init_dict & Hrun & _ & _ & Hflag & Hbuilds & Hfirst & Hlater).
  - reflexivity.
  - reflexivity.
  - reflexivity.
  - apply (bool_decide_unpack _). vm_compute. exact I.
  - intros name Hin. apply list_elem_of_singleton in Hin as ->.
    vm_compute. eauto.
  - assert (s1 = cpp_compiled) as ->.
    { unfold cpp_compiled. simpl. by rewrite Hrun. }
    split; [reflexivity |]. split; [exact Hflag |]. split; [exact Hbuilds |].
    destruct (Hlater two_reruns)
      as (_ & Hbuilds' & _ & _ & _ & _ & Hlaunches & _).
    split; [by rewrite Hbuilds' |]. split; [rewrite Hlaunches; reflexivity |].
    destruct Hfirst as (queued & Hqueue & _ & _ & Hlisted).
    destruct (Hlisted "v") as (identifier & Hid & Hmem & _ & Hfile).
    { apply list_elem_of_singleton. reflexivity. }
    destruct (Hlater []) as (_ & _ & _ & _ & _ & _ & _ & Hrerun).
    destruct (Hrerun five_steps v_20 [] "fit") as (s3 & Hrun3 & _ & _ & Hl3 & _ & Hwritten).
    { exists 1%positive. reflexivity. }
    { intros k v Hkv. apply list_elem_of_singleton in Hkv as [= -> ->].
      apply list_elem_of_singleton. reflexivity. }
    exists identifier, s3. split.
    { rewrite Hqueue. apply elem_of_app. right. apply elem_of_app. by left. }
    split; [exact Hfile |]. split; [exact Hrun3 |]. split.
    + apply (Hwritten "v" 20%Z identifier).
      * apply list_elem_of_singleton. reflexivity.
      * exact Hid.
      * intros k' v' Hkv _. by apply list_elem_of_singleton in Hkv as [= -> ->].
    + rewrite Hl3. reflexivity.
Defined.

Lemma compiled_rerun_skips_var_init_witness :
  final (CPPStandaloneSimulator_run 3 [("v", 20%Z)] ["v"] "fit"
           (replace_var_init (Some [("I", 9%Z)]) cpp_compiled)) =
  replace_var_init (Some [("I", 9%Z)])
    (final (CPPStandaloneSimulator_run 3 [("v", 20%Z)] ["v"] "fit" cpp_compiled)).
Proof.
  destruct (compiled_rerun_skips_var_init (B := integrator) 3 [("v", 20%Z)] ["v"] "fit" cpp_compiled)
    as (Hvi & _).
  - reflexivity.
  - rewrite Hvi.
    by destruct (CPPStandaloneSimulator_run _ _ _ _ cpp_compiled).
Defined.

Lemma rerun_before_first_run_fails_witness :
  CPPStandaloneSimulator_run 3 [("v", 20%Z)] ["v"] "fit" cpp_second =
    Raise (AttributeError "params_init") cpp_second.
Proof.
  apply (rerun_before_first_run_fails (B := integrator) cpp_second eq_refl eq_refl []).
  vm_compute. eauto.
Defined.

(** * The metric engine: proofs *)

Section MetricProofs.
Local Open Scope Q_scope.
Variable to_samples : Q → Q → nat.

Lemma Qsum_zero xs : Forall (fun q => q == 0) xs → Qsum xs == 0.
Proof.
  induction 1 as [|q xs Hq _ IH]; simpl; [reflexivity |].
  rewrite Hq, IH. reflexivity.
Qed.

Lemma squared_differences_self xs :
  Forall (fun q => q == 0) (zip_with (fun a b => (a - b) * (a - b)) xs xs).
Proof. induction xs as [|x xs IH]; simpl; constructor; [ring | done]. Qed.

Lemma mean_squared_difference_self series :
  series ≠ [] →
  ∃ q, mean_squared_difference series series = Some q ∧ q == 0.
Proof.
  intros Hne. unfold mean_squared_difference, mean.
  destruct series as [|x xs]; [done |]. simpl zip_with.
  eexists. split; [reflexivity |].
  rewrite (Qsum_zero _ (squared_differences_self (x :: xs))).
  unfold Qdiv. ring.
Qed.

(** C6. For an array [X] of [n_channels] series, each with a sample at or
    after the start, [get_features(X, X, n_channels, dt)] is the zero
    matrix of [n_channels] rows and one column. *)
Theorem MSEMetric_get_features_self X n_channels dt t_start :
  length X = n_channels →
  Forall (fun series => (to_samples t_start dt < length series)%nat) X →
  ∃ features,
    MSEMetric_get_features to_samples X X n_channels dt t_start = Some features ∧
    length features = n_channels ∧
    Forall (fun row => ∃ q, row = [q] ∧ q == 0) features.
Proof.
  intros Hlen Hsamples. unfold MSEMetric_get_features.
  destruct n_channels as [|n].
  { exists []. destruct X; [| done]. by repeat split. }
  rewrite Hlen, Nat.div_same by done.
  set (f := fun channel : nat => _).
  assert (∀ channel, (channel < S n)%nat →
            ∃ q, f channel = Some [q] ∧ q == 0) as Hf.
  { intros channel Hlt. subst f. simpl.
    destruct (lookup_lt_is_Some_2 X channel) as [series Hseries]; [lia |].
    rewrite Hseries. simpl.
    replace (channel * 1 + 0)%nat with channel by lia. rewrite Hseries. simpl.
    destruct (mean_squared_difference_self (drop (to_samples t_start dt) series))
      as (q & -> & Hq).
    - rewrite Forall_lookup in Hsamples. specialize (Hsamples _ _ Hseries).
      intros Hnil. apply (f_equal length) in Hnil.
      rewrite length_drop in Hnil. simpl in Hnil. lia.
    - by exists q. }
  destruct (mapM_is_Some_2 f (seq 0 (S n))) as [features Hfeatures].
  { apply Forall_forall. intros channel Hin. apply elem_of_seq in Hin.
    destruct (Hf channel) as (q & Hq & _); [lia |].
    unfold compose. rewrite Hq. by eexists. }
  exists features. split; [done |].
  pose proof (length_mapM _ _ _ Hfeatures) as Hl. rewrite length_seq in Hl.
  split; [done |].
  apply mapM_Some_1 in Hfeatures. apply Forall_lookup. intros i row Hrow.
  destruct (Forall2_lookup_r _ _ _ _ _ Hfeatures Hrow) as (channel & Hchannel & Hrun).
  apply lookup_seq in Hchannel as [-> Hlt].
  destruct (Hf (0 + i)%nat) as (q & Hq & Hzero); [lia |].
  exists q. split; [congruence | done].
Qed.

(** C7. The firing rate of at least two events is the number of events
    less one, over the time from the first to the last one (taken here for
    a span that is not zero); it is 1 for [1, 2, 3] and 5 for
    [1, 1.2, 1.4, 1.6, 1.8]. *)
Theorem firing_rate_is_count_over_span spikes first final_ :
  (2 ≤ length spikes)%nat →
  head spikes = Some first →
  last spikes = Some final_ →
  ¬ final_ == first →
  firing_rate spikes =
    Some ((inject_Z (Z.of_nat (length spikes)) - 1) / (final_ - first)) ∧
  (∃ rate, firing_rate [1; 2; 3] = Some rate ∧ rate == 1) ∧
  (∃ rate, firing_rate [1; 1.2; 1.4; 1.6; 1.8] = Some rate ∧ rate == 5).
Proof.
  intros Hlen Hfirst Hlast _. split.
  - unfold firing_rate. rewrite Hfirst, Hlast. by rewrite decide_True.
  - split; eexists; (split; [reflexivity | reflexivity]).
Qed.

(** C8. [GammaFactor(delta, time)] makes an engine exactly when both
    arguments are given and both are times; otherwise the constructor
    itself raises, and there is no engine to score with. *)
Theorem GammaFactor_init_validates delta time :
  (delta = None ∨ time = None ∨
   (∃ q, (delta = Some q ∨ time = Some q) ∧ is_time q = false) →
   ∃ e, GammaFactor_init delta time = inl e) ∧
  (∀ d t, delta = Some d → time = Some t → is_time d = true → is_time t = true →
     GammaFactor_init delta time = inr (mkGammaFactor d t)) ∧
  GammaFactor_init None None = inl (TypeError "missing required positional argument") ∧
  GammaFactor_init (Some (number 10)) None = inl DimensionMismatchError ∧
  GammaFactor_init None (Some (number 10)) = inl DimensionMismatchError ∧
  GammaFactor_init (Some (ms 10)) (Some (ms 10)) =
    inr (mkGammaFactor (ms 10) (ms 10)).
Proof.
  split; [| split; [| by repeat split]].
  - unfold GammaFactor_init.
    intros [-> | [-> | (q & [-> | ->] & Hq)]]; simpl.
    + destruct time as [t|]; simpl; [destruct (is_time t) |]; eauto.
    + destruct delta as [d|]; simpl; [destruct (is_time d) |]; eauto.
    + rewrite Hq. simpl. eauto.
    + rewrite Hq, andb_false_r. simpl. eauto.
  - intros d t -> -> Hd Ht. unfold GammaFactor_init. simpl. by rewrite Hd, Ht.
Qed.

End MetricProofs.

(** ** The metric theorems on concrete inputs *)

Example MSEMetric_get_features_2_20 :
  fmap (M := list) (fmap (M := list) Qred) <$>
    MSEMetric_get_features floor_samples X_2_20 X_2_20 2 (1 # 10000) 0 =
  Some [[0%Q]; [0%Q]].
Proof. vm_compute. reflexivity. Qed.

Lemma MSEMetric_get_features_self_witness :
  ∃ features,
    MSEMetric_get_features floor_samples X_2_20 X_2_20 2 (1 # 10000) 0 =
      Some features ∧
    length features = 2 ∧
    Forall (fun row => ∃ q, row = [q] ∧ (q == 0)%Q) features.
Proof.
  apply (MSEMetric_get_features_self floor_samples X_2_20 2 (1 # 10000) 0).
  - reflexivity.
  - apply Forall_cons. split; [vm_compute; lia |].
    apply Forall_cons. split; [vm_compute; lia |]. apply Forall_nil_2.
Defined.

Lemma firing_rate_is_count_over_span_witness :
  firing_rate [1; 1.2; 1.4; 1.6; 1.8]%Q =
    Some ((inject_Z (Z.of_nat 5) - 1) / (1.8 - 1))%Q.
Proof.
  apply (firing_rate_is_count_over_span [1; 1.2; 1.4; 1.6; 1.8]%Q 1%Q 1.8%Q).
  - simpl. lia.
  - reflexivity.
  - reflexivity.
  - intros H. vm_compute in H. discriminate H.
Defined.

(** * More about the simulators: proofs *)

Section FrameProofs.
Context `{B : Brian2}.

Lemma preserves_bind (R : state → state → Prop) `{!Transitive R} {A C}
    (m : M A) (k : A → M C) :
  preserves R m → (∀ a, preserves R (k a)) → preserves R (bind m k).
Proof.
  intros Hm Hk s. unfold bind. specialize (Hm s).
  destruct (m s) as [a s'|e s']; simpl in *; [| done].
  etrans; [exact Hm | apply Hk].
Qed.

Lemma preserves_pure (R : state → state → Prop) `{!Reflexive R} {A} (m : M A) :
  (∀ s, final (m s) = s) → preserves R m.
Proof. intros Hm s. by rewrite Hm. Qed.

Lemma preserves_for_each (R : state → state → Prop)
    `{!Reflexive R, !Transitive R} {A} (l : list A) (body : A → M unit) :
  (∀ x, preserves R (body x)) → preserves R (for_each l body).
Proof.
  intros Hbody. induction l as [|x l IH]; simpl.
  - by apply preserves_pure.
  - by apply preserves_bind.
Qed.

#[local] Instance touches_only_current_refl network :
  Reflexive (touches_only_current network).
Proof.
  intros s. repeat split; try done. by destruct (heap s !! network).
Qed.

#[local] Instance touches_only_current_trans network :
  Transitive (touches_only_current network).
Proof.
  intros s1 s2 s3 (Hs1 & Hd1 & Ho1 & Hn1) (Hs2 & Hd2 & Ho2 & Hn2).
  split; [congruence |]. split; [congruence |]. split.
  - intros other Hne. by rewrite Ho2, Ho1.
  - destruct (heap s1 !! network), (heap s2 !! network), (heap s3 !! network);
      try done.
    destruct Hn1, Hn2. split; congruence.
Qed.

#[local] Instance keeps_registry_refl : Reflexive keeps_registry.
Proof. by intros s. Qed.

#[local] Instance keeps_registry_trans : Transitive keeps_registry.
Proof.
  intros s1 s2 s3 (? & ?) (? & ?). split; congruence.
Qed.

Lemma touches_update network net net' s :
  heap s !! network = Some net →
  objects net' = objects net → stored net' = stored net →
  touches_only_current network s (with_heap <[network := net']> s).
Proof.
  intros Hnet Ho Hs. repeat split; simpl.
  - intros other Hne. by rewrite lookup_insert_ne.
  - by rewrite Hnet, lookup_insert_eq.
Qed.

Lemma Network_restore_touches network :
  preserves (touches_only_current network) (Network_restore network).
Proof.
  intros s. unfold Network_restore.
  destruct (heap s !! network) as [net|] eqn:Hnet; [| reflexivity].
  destruct (stored net) as [st|] eqn:Hst; [| reflexivity].
  by apply (touches_update _ net).
Qed.

Lemma on_current_touches network meth f :
  preserves (touches_only_current network) (on_current network meth f).
Proof.
  intros s. unfold on_current.
  destruct (heap s !! network) as [net|] eqn:Hnet; [| reflexivity].
  by apply (touches_update _ net).
Qed.

Lemma Network_getitem_pure network name s :
  final (Network_getitem network name s) = s.
Proof.
  unfold Network_getitem. destruct (heap s !! network) as [net|]; [| done].
  by destruct (decide (name ∈ objects net)).
Qed.

Lemma Network_getitem_returns network name s a s' :
  Network_getitem network name s = Ok a s' → a = network.
Proof.
  unfold Network_getitem. destruct (heap s !! network) as [net|]; [| done].
  destruct (decide (name ∈ objects net)); [| done]. by intros [= <- _].
Qed.

Ltac pure_statement := apply preserves_pure; [apply _ | done].

(** The statements of [RuntimeSimulator.run] after [self.networks[name]]. *)
Lemma runtime_body_touches network d p :
  preserves (touches_only_current network)
    (let* _ := Network_restore network in
     let* neurons := Network_getitem network "neurons" in
     let* _ := neurons_set_states neurons p in
     let* vi := gets (fun s => var_init (sim s)) in
     let* _ := match vi with
               | Some d =>
                   for_each d (fun '(k, v) =>
                     let* neurons := Network_getitem network "neurons" in
                     neurons_setattr neurons k v)
               | None => ret tt
               end in
     Network_run network d).
Proof.
  assert (∀ (k : loc → M unit),
            (preserves (touches_only_current network) (k network)) →
            preserves (touches_only_current network)
              (let* neurons := Network_getitem network "neurons" in k neurons))
    as Hgetitem.
  { intros k Hk s. unfold bind.
    destruct (Network_getitem network "neurons" s) as [a s'|e s'] eqn:Hget.
    - pose proof (Network_getitem_returns _ _ _ _ _ Hget) as ->.
      pose proof (Network_getitem_pure network "neurons" s) as Hpure.
      rewrite Hget in Hpure. simpl in Hpure. subst s'. apply Hk.
    - pose proof (Network_getitem_pure network "neurons" s) as Hpure.
      rewrite Hget in Hpure. simpl in *. subst s'. reflexivity. }
  apply preserves_bind; [apply _ | apply Network_restore_touches |]. intros _.
  apply Hgetitem.
  apply preserves_bind; [apply _ | apply on_current_touches |]. intros _.
  apply preserves_bind; [apply _ | pure_statement |]. intros vi.
  apply preserves_bind; [apply _ | | intros _; apply on_current_touches].
  destruct vi as [vi|]; [| pure_statement].
  apply preserves_for_each; try apply _. intros [k v].
  apply (Hgetitem (fun neurons => neurons_setattr neurons k v)).
  apply on_current_touches.
Qed.

Lemma RuntimeSimulator_run_touches d p pn name s :
  let s' := final (RuntimeSimulator_run d p pn name s) in
  sim s' = sim s ∧ device s' = device s ∧
  (∀ other, networks (sim s) !! name ≠ Some other →
     heap s' !! other = heap s !! other) ∧
  (∀ network net, heap s !! network = Some net →
     ∃ net', heap s' !! network = Some net' ∧
             objects net' = objects net ∧ stored net' = stored net).
Proof.
  simpl. unfold RuntimeSimulator_run.
  destruct (networks (sim s) !! name) as [network|] eqn:Hname.
  - rewrite (bind_Ok _ _ _ _ _ (get_network_ok _ _ _ Hname)).
    destruct (runtime_body_touches network d p s) as (Hsim & Hdev & Hother & Hnet).
    split; [done |]. split; [done |]. split.
    + intros other Hne. apply Hother. congruence.
    + intros l net Hl. destruct (decide (l = network)) as [->|Hne].
      * rewrite Hl in Hnet.
        match type of Hnet with
        | match ?x with _ => _ end => destruct x as [net'|]; [| done]
        end.
        by exists net'.
      * exists net. by rewrite Hother.
  - rewrite (bind_Raise _ _ _ _ _ (get_network_unregistered _ _ Hname)). simpl.
    repeat split; try done. intros l net Hl. by exists net.
Qed.

(** X1. Whatever the state, [RuntimeSimulator.run] leaves the simulator and
    the device as they were; it leaves every network but the one
    registered under [name] as it was, and of that one it keeps the objects
    and the snapshot.  This holds also when the run raises. *)
Theorem RuntimeSimulator_run_frame d p pn name s :
  let s' := final (RuntimeSimulator_run d p pn name s) in
  sim s' = sim s ∧ device s' = device s ∧
  (∀ other, networks (sim s) !! name ≠ Some other →
     heap s' !! other = heap s !! other) ∧
  (∀ network net, heap s !! network = Some net →
     ∃ net', heap s' !! network = Some net' ∧
             objects net' = objects net ∧ stored net' = stored net).
Proof. apply RuntimeSimulator_run_touches. Qed.

Lemma with_device_keeps_registry f :
  preserves keeps_registry (modify (with_device f)).
Proof. by intros s. Qed.

Lemma initialize_neurons_from_keeps_registry neurons params params_names :
  ∀ acc, preserves keeps_registry
           (initialize_neurons_from acc params_names neurons params).
Proof.
  induction params_names as [|name rest IH]; intros acc; simpl.
  - pure_statement.
  - apply preserves_bind; [apply _ | pure_statement |]. intros view.
    apply preserves_bind; [apply _ | |].
    { unfold dict_getitem. destruct (dict_get params name); pure_statement. }
    intros value.
    apply preserves_bind; [apply _ | | intros static_name; apply IH].
    unfold initialize_parameter.
    apply preserves_bind; [apply _ | by intros s |]. intros static_name.
    apply preserves_bind; [apply _ | apply with_device_keeps_registry |].
    intros _. pure_statement.
Qed.

Lemma set_states_keeps_registry init_dict values :
  preserves keeps_registry (set_states init_dict values).
Proof.
  apply preserves_for_each; try apply _. intros [obj_name obj_values].
  destruct (init_dict !! obj_name); [| pure_statement].
  intros s0. unfold set_parameter_value, tofile.
  by destruct (has_been_run (device s0)).
Qed.

Lemma CPPStandaloneSimulator_run_preserves d p pn name :
  preserves keeps_registry (CPPStandaloneSimulator_run d p pn name).
Proof.
  unfold CPPStandaloneSimulator_run.
  apply preserves_bind; [apply _ | |].
  { intros s. unfold get_network. by destruct (networks (sim s) !! name). }
  intros network.
  apply preserves_bind; [apply _ | pure_statement |]. intros [|]; simpl.
  - apply preserves_bind; [apply _ | |].
    { intros s. unfold get_params_init. by destruct (params_init (sim s)). }
    intros init_dict.
    apply preserves_bind; [apply _ | apply set_states_keeps_registry |].
    intros _. apply with_device_keeps_registry.
  - apply preserves_bind; [apply _ | |].
    { intros s. by rewrite Network_getitem_pure. }
    intros neurons.
    apply preserves_bind;
      [apply _ | apply initialize_neurons_from_keeps_registry |].
    intros init_dict.
    apply preserves_bind; [apply _ | by intros s |]. intros _.
    apply preserves_bind; [apply _ | pure_statement |]. intros vi.
    apply preserves_bind;
      [apply _ | | intros _; apply with_device_keeps_registry].
    destruct vi as [vi|]; [| pure_statement].
    apply preserves_for_each; try apply _. intros [k v].
    apply preserves_bind; [apply _ | |].
    { intros s. by rewrite Network_getitem_pure. }
    intros neurons'. apply with_device_keeps_registry.
Qed.

(** X2. Whatever the state, [CPPStandaloneSimulator.run] leaves the
    registered networks and [var_init] as they were, also when it raises:
    of the simulator's own fields it can only assign [params_init]. *)
Theorem CPPStandaloneSimulator_run_keeps_registry d p pn name s :
  keeps_registry s (final (CPPStandaloneSimulator_run d p pn name s)).
Proof. apply CPPStandaloneSimulator_run_preserves. Qed.

(** [initialize] in one statement: what it returns for any state. *)
Lemma initialize_cases network vi name s :
  (heap s !! network = None ∧
   RuntimeSimulator_initialize network vi name s = Raise AssertionError s ∧
   CPPStandaloneSimulator_initialize network vi name s = Raise AssertionError s) ∨
  (∃ net, heap s !! network = Some net ∧
     ("monitor" ∉ objects net ∨ "neurons" ∉ objects net) ∧
     RuntimeSimulator_initialize network vi name s = Raise role_error s ∧
     CPPStandaloneSimulator_initialize network vi name s = Raise role_error s) ∨
  (∃ net, heap s !! network = Some net ∧
     "monitor" ∈ objects net ∧ "neurons" ∈ objects net ∧
     RuntimeSimulator_initialize network vi name s =
       Ok tt {| sim := {| networks := <[name := network]> (networks (sim s));
                          var_init := vi; params_init := params_init (sim s) |};
                heap := <[network := {| objects := objects net;
                                        current := current net;
                                        stored := Some (current net) |}]> (heap s);
                device := device s |} ∧
     CPPStandaloneSimulator_initialize network vi name s =
       Ok tt {| sim := {| networks := <[name := network]> (networks (sim s));
                          var_init := vi; params_init := params_init (sim s) |};
                heap := heap s; device := device s |}).
Proof.
  destruct (heap s !! network) as [net|] eqn:Hnet.
  - destruct (decide ("monitor" ∈ objects net ∧ "neurons" ∈ objects net))
      as [[Hm Hn]|Hmiss].
    + right. right. exists net.
      by rewrite (RuntimeSimulator_initialize_ok _ vi name _ _ Hnet Hm Hn),
        (CPPStandaloneSimulator_initialize_ok _ vi name _ _ Hnet Hm Hn).
    + right. left. exists net. apply not_and_l in Hmiss.
      destruct (initialize_missing_role _ vi name _ _ Hnet Hmiss). by repeat split.
  - left. destruct (initialize_not_a_network _ vi name _ Hnet). by repeat split.
Qed.

(** X3. An [initialize] that raises has changed nothing: nothing is
    registered, [var_init] is as before, no snapshot is taken.  It raises
    the [AssertionError] of the [isinstance] test or the [KeyError] of the
    role test, and both simulators raise alike. *)
Theorem initialize_fails_cleanly network vi name s e s' :
  RuntimeSimulator_initialize network vi name s = Raise e s' ∨
  CPPStandaloneSimulator_initialize network vi name s = Raise e s' →
  s' = s ∧
  (e = AssertionError ∨ e = role_error) ∧
  RuntimeSimulator_initialize network vi name s = Raise e s ∧
  CPPStandaloneSimulator_initialize network vi name s = Raise e s.
Proof.
  intros Hraise.
  destruct (initialize_cases network vi name s)
    as [(_ & Hr & Hc) | [(net & _ & _ & Hr & Hc) | (net & _ & _ & _ & Hr & Hc)]];
    rewrite Hr, Hc in *; destruct Hraise as [[= <- <-]|[= <- <-]]; eauto.
Qed.

(** X4. A [run] on a name that is not registered raises [KeyError] for that
    name and changes nothing, for both simulators and whatever the device
    has done; so does every [run] on a new simulator. *)
Theorem run_unregistered_name d p pn name s :
  networks (sim s) !! name = None →
  RuntimeSimulator_run d p pn name s = Raise (KeyError name) s ∧
  CPPStandaloneSimulator_run d p pn name s = Raise (KeyError name) s ∧
  ∀ h dv,
    RuntimeSimulator_run d p pn name
      {| sim := Simulator_init; heap := h; device := dv |} =
      Raise (KeyError name) {| sim := Simulator_init; heap := h; device := dv |} ∧
    CPPStandaloneSimulator_run d p pn name
      {| sim := Simulator_init; heap := h; device := dv |} =
      Raise (KeyError name) {| sim := Simulator_init; heap := h; device := dv |}.
Proof.
  assert (∀ s0, networks (sim s0) !! name = None →
            RuntimeSimulator_run d p pn name s0 = Raise (KeyError name) s0 ∧
            CPPStandaloneSimulator_run d p pn name s0 = Raise (KeyError name) s0)
    as Hboth.
  { intros s0 Hname. split.
    - unfold RuntimeSimulator_run.
      by rewrite (bind_Raise _ _ _ _ _ (get_network_unregistered _ _ Hname)).
    - by apply CPPStandaloneSimulator_run_unregistered. }
  intros Hname. destruct (Hboth s Hname) as [Hr Hc].
  split; [done |]. split; [done |]. intros h dv. apply Hboth. simpl.
  apply lookup_empty.
Qed.

Lemma exec_keeps_registered exec c s name :
  exec = runtime_exec ∨ exec = cpp_exec →
  is_Some (networks (sim s) !! name) →
  is_Some (networks (sim (final (exec c s))) !! name).
Proof.
  intros Hexec Hname. destruct c as [network vi name'|d p pn name'].
  - destruct (initialize_cases network vi name' s)
      as [(_ & Hr & Hc) | [(net & _ & _ & Hr & Hc) | (net & _ & _ & _ & Hr & Hc)]];
      destruct Hexec as [-> | ->]; simpl; rewrite ?Hr, ?Hc; simpl; try done.
    all: rewrite lookup_insert_is_Some; destruct (decide (name' = name)); eauto.
  - destruct Hexec as [-> | ->]; simpl.
    + destruct (RuntimeSimulator_run_touches d p pn name' s) as (-> & _). done.
    + destruct (CPPStandaloneSimulator_run_preserves d p pn name' s)
        as (-> & _). done.
Qed.

(** X5. No sequence of calls, on either simulator, unregisters a name. *)
Theorem registered_names_stay exec calls s name :
  exec = runtime_exec ∨ exec = cpp_exec →
  is_Some (networks (sim s) !! name) →
  is_Some (networks (sim (exec_all exec calls s)) !! name).
Proof.
  intros Hexec. revert s. induction calls as [|c calls IH]; intros s Hname.
  - done.
  - simpl. apply IH. by apply exec_keeps_registered.
Qed.

(** X6. On a [RuntimeSimulator] in use, what an earlier [run] on a name did
    is gone with the next one: a [run] after another [run] on the same
    name, whatever its duration and parameters were, ends in the state it
    would have ended in without it. *)
Theorem earlier_run_is_discarded d1 p1 pn1 d2 p2 pn2 name s :
  runtime_reachable s →
  RuntimeSimulator_run d2 p2 pn2 name
    (final (RuntimeSimulator_run d1 p1 pn1 name s)) =
  RuntimeSimulator_run d2 p2 pn2 name s.
Proof.
  intros Hreach. destruct (networks (sim s) !! name) as [network|] eqn:Hname.
  - destruct (runtime_reachable_wf _ Hreach _ _ Hname)
      as (net & Hnet & Hneu & [st Hst]).
    rewrite (RuntimeSimulator_run_spec d1 p1 pn1 _ _ _ _ _ Hname Hnet Hst Hneu).
    simpl.
    erewrite (RuntimeSimulator_run_spec d2 p2 pn2 name network _ st
                (with_heap _ s));
      [| exact Hname | apply heap_insert_lookup | reflexivity | exact Hneu].
    rewrite with_heap_insert_twice. simpl.
    by rewrite (RuntimeSimulator_run_spec d2 p2 pn2 _ _ _ _ _ Hname Hnet Hst Hneu).
  - unfold RuntimeSimulator_run at 2.
    by rewrite (bind_Raise _ _ _ _ _ (get_network_unregistered _ _ Hname)).
Qed.

(** X7. What a [RuntimeSimulator.run] on [name1] does to the trace read
    under another name depends on the network objects: if [name2] is
    registered for another network, its trace is as it was; if both names
    are registered for the same network, [name2] now reads the trace of
    this run. *)
Theorem traces_follow_networks d p pn name1 name2 network1 network2 s :
  networks (sim s) !! name1 = Some network1 →
  networks (sim s) !! name2 = Some network2 →
  let s' := final (RuntimeSimulator_run d p pn name1 s) in
  (network1 ≠ network2 → output_trace name2 s' = output_trace name2 s) ∧
  (network1 = network2 → output_trace name2 s' = output_trace name1 s').
Proof.
  intros Hname1 Hname2. simpl.
  destruct (RuntimeSimulator_run_touches d p pn name1 s) as (Hsim & _ & Hother & _).
  unfold output_trace. rewrite Hsim, Hname1, Hname2. split.
  - intros Hne. rewrite Hother; [done |]. rewrite Hname1. congruence.
  - by intros ->.
Qed.

(** X8. Once the device has been run, [CPPStandaloneSimulator.run] looks at
    its [params] only: the duration, [params_names] and which of the
    registered names is given make no difference. *)
Theorem compiled_run_ignores_arguments d d' p pn pn' name name' s :
  has_been_run (device s) = true →
  is_Some (networks (sim s) !! name) →
  is_Some (networks (sim s) !! name') →
  CPPStandaloneSimulator_run d p pn name s =
  CPPStandaloneSimulator_run d' p pn' name' s.
Proof.
  intros Hrun [network Hname] [network' Hname'].
  destruct (params_init (sim s)) as [init_dict|] eqn:Hpi.
  - by rewrite (CPPStandaloneSimulator_rerun d p pn name network init_dict),
      (CPPStandaloneSimulator_rerun d' p pn' name' network' init_dict).
  - by rewrite (CPPStandaloneSimulator_run_no_params_init d p pn name network),
      (CPPStandaloneSimulator_run_no_params_init d' p pn' name' network').
Qed.

(** ** [set_states] and the files *)

(** X9. On a device that has been built, when every key of [values] is a
    key of [init_dict], [set_states] returns and has written the files one
    after the other.  Afterwards the file of a listed parameter holds its
    value, made an array, unless another listed value goes to the same
    file; a file that no listed parameter addresses is as it was. *)
Theorem set_states_writes_the_files init_dict values s :
  has_been_run (device s) = true →
  (∀ obj_name obj_values, (obj_name, obj_values) ∈ values →
     is_Some (init_dict !! obj_name)) →
  ∃ s',
    set_states init_dict values s = Ok tt s' ∧
    s' = with_files (written init_dict values) s ∧
    (∀ obj_name obj_values identifier,
       (obj_name, obj_values) ∈ values →
       init_dict !! obj_name = Some identifier →
       (∀ obj_name' obj_values', (obj_name', obj_values') ∈ values →
          init_dict !! obj_name' = Some identifier → obj_values' = obj_values) →
       files (device s') !! identifier = Some (atleast_1d obj_values)) ∧
    (∀ file,
       (∀ obj_name obj_values, (obj_name, obj_values) ∈ values →
          init_dict !! obj_name ≠ Some file) →
       files (device s') !! file = files (device s) !! file).
Proof.
  intros Hbuilt Hin. eexists. split; [by apply set_states_ok |].
  split; [done |]. simpl. split.
  - apply written_holds.
  - apply written_elsewhere.
Qed.

(** X10. On a device that has been built, [set_states] stops at the first
    key that [init_dict] lacks, with [KeyError] for that key: the files of
    the entries before it are written and stay written, those of the
    entries after it are not. *)
Theorem set_states_stops_at_missing_key init_dict before obj_name obj_values after s :
  has_been_run (device s) = true →
  (∀ k v, (k, v) ∈ before → is_Some (init_dict !! k)) →
  init_dict !! obj_name = None →
  set_states init_dict (before ++ (obj_name, obj_values) :: after) s =
    Raise (KeyError obj_name) (with_files (written init_dict before) s).
Proof.
  apply set_states_missing.
Qed.

(** ** The first run and its parameters *)

(** X11. After a first run with [params_names], only those parameters can be
    set: a later [run] whose [params] has a key outside [params_names]
    raises [KeyError] for the first such key.  The files of the entries
    before it are written, and the program is not executed. *)
Theorem rerun_with_unknown_parameter
    d p pn name network net d' pn' name' before k v after s :
  has_been_run (device s) = false →
  networks (sim s) !! name = Some network →
  heap s !! network = Some net →
  "neurons" ∈ objects net →
  (∀ name, name ∈ pn → is_Some (dict_get p name)) →
  is_Some (networks (sim s) !! name') →
  (∀ k0 v0, (k0, v0) ∈ before → k0 ∈ pn) →
  k ∉ pn →
  ∃ s1 init_dict,
    CPPStandaloneSimulator_run d p pn name s = Ok tt s1 ∧
    params_init (sim s1) = Some init_dict ∧
    CPPStandaloneSimulator_run d' (before ++ (k, v) :: after) pn' name' s1 =
      Raise (KeyError k) (with_files (written init_dict before) s1) ∧
    launches (device (with_files (written init_dict before) s1)) =
      launches (device s1).
Proof.
  intros Hrun Hname Hnet Hneu Hin [network' Hname'] Hbefore Hk.
  destruct (CPPStandaloneSimulator_first_run d p pn name _ _ _ Hrun Hname Hnet Hneu Hin)
    as (init_dict & queued & arrays & -> & Hdom & _ & _).
  eexists _, init_dict. split; [reflexivity |]. split; [reflexivity |].
  split; [| reflexivity].
  rewrite (CPPStandaloneSimulator_rerun d' _ pn' name' network' init_dict);
    [| reflexivity | exact Hname' | reflexivity].
  apply bind_Raise. apply set_states_missing.
  - reflexivity.
  - intros k0 v0 Hmem. apply elem_of_dom. rewrite Hdom.
    apply elem_of_list_to_set. by apply (Hbefore k0 v0).
  - apply not_elem_of_dom. rewrite Hdom. by rewrite elem_of_list_to_set.
Qed.

Lemma initialize_neurons_from_app neurons params before : ∀ rest acc s,
  initialize_neurons_from acc (before ++ rest) neurons params s =
  (let* acc' := initialize_neurons_from acc before neurons params in
   initialize_neurons_from acc' rest neurons params) s.
Proof.
  induction before as [|name before IH]; intros rest acc s; [done |].
  simpl. unfold bind, neurons_getattr, dict_getitem.
  destruct (dict_get params name) as [value|]; [| done].
  unfold ret.
  destruct (initialize_parameter (neurons, name) value s)
    as [static_name s'|e s']; [| done].
  rewrite IH. by unfold bind.
Qed.

Lemma initialize_neurons_from_missing neurons params before missing after acc s :
  (∀ name, name ∈ before → is_Some (dict_get params name)) →
  dict_get params missing = None →
  ∃ stale arrays,
    initialize_neurons_from acc (before ++ missing :: after) neurons params s =
      Raise (KeyError missing)
        {| sim := sim s; heap := heap s;
           device := {| has_been_run := has_been_run (device s);
                        main_queue := main_queue (device s) ++ stale;
                        static_arrays := arrays;
                        files := files (device s);
                        builds := builds (device s);
                        launches := launches (device s) |} |} ∧
    Forall is_set_by_array stale ∧ length stale = length before.
Proof.
  intros Hbefore Hmissing.
  destruct (initialize_neurons_from_spec neurons params before acc s Hbefore)
    as (acc' & stale & arrays & Hinit & _ & Hstale & Hlen).
  exists stale, arrays. split; [| done].
  rewrite initialize_neurons_from_app, (bind_Ok _ _ _ _ _ Hinit).
  simpl. unfold bind at 1. unfold neurons_getattr, ret.
  unfold bind at 1. unfold dict_getitem. by rewrite Hmissing.
Qed.

Lemma present_or_first_missing (params : list (string * Value)) params_names :
  (∀ name, name ∈ params_names → is_Some (dict_get params name)) ∨
  ∃ before missing after,
    params_names = before ++ missing :: after ∧
    (∀ name, name ∈ before → is_Some (dict_get params name)) ∧
    dict_get params missing = None.
Proof.
  induction params_names as [|name rest IH].
  - left. intros name Hname. by apply elem_of_nil in Hname.
  - destruct (dict_get params name) as [value|] eqn:Hvalue.
    + destruct IH as [Hall | (before & missing & after & -> & Hbefore & Hmissing)].
      * left. intros name' Hname'. apply elem_of_cons in Hname' as [->|Hname'];
          [by eexists | by apply Hall].
      * right. exists (name :: before), missing, after. split; [done |].
        split; [| done]. intros name' Hname'.
        apply elem_of_cons in Hname' as [->|Hname']; [by eexists | by apply Hbefore].
    + right. exists [], name, rest. split; [done |]. split; [| done].
      intros name' Hname'. by apply elem_of_nil in Hname'.
Qed.

Lemma CPPStandaloneSimulator_first_run_missing
    d p name network net before missing after s :
  has_been_run (device s) = false →
  networks (sim s) !! name = Some network →
  heap s !! network = Some net →
  "neurons" ∈ objects net →
  (∀ name, name ∈ before → is_Some (dict_get p name)) →
  dict_get p missing = None →
  ∃ stale arrays,
    CPPStandaloneSimulator_run d p (before ++ missing :: after) name s =
      Raise (KeyError missing)
        {| sim := sim s; heap := heap s;
           device := {| has_been_run := has_been_run (device s);
                        main_queue := main_queue (device s) ++ stale;
                        static_arrays := arrays;
                        files := files (device s);
                        builds := builds (device s);
                        launches := launches (device s) |} |} ∧
    Forall is_set_by_array stale ∧ length stale = length before.
Proof.
  intros Hrun Hname Hnet Hneu Hbefore Hmissing.
  destruct (initialize_neurons_from_missing network p before missing after ∅ s
              Hbefore Hmissing) as (stale & arrays & Hinit & Hstale & Hlen).
  exists stale, arrays. split; [| done].
  unfold CPPStandaloneSimulator_run.
  rewrite (bind_Ok _ _ _ _ _ (get_network_ok _ _ _ Hname)).
  unfold bind at 1. unfold device_has_been_run, gets. rewrite Hrun. simpl.
  rewrite (bind_Ok _ _ _ _ _ (Network_getitem_ok _ _ _ _ Hnet Hneu)).
  unfold initialize_neurons. rewrite (bind_Raise _ _ _ _ _ Hinit).
  by rewrite Hrun.
Qed.

(** X12. When a first run raises [KeyError] for a name of [params_names]
    that is not a key of [params], the names before it being keys, the
    device is still not run, nothing is built or written and
    [params_init] is not assigned; but the assignments queued for the
    names before the missing one stay in the program.  If a second attempt
    then returns, it has queued every parameter again, after the stale
    ones. *)
Theorem first_run_with_missing_parameter
    d p name network net before missing after s s' :
  has_been_run (device s) = false →
  networks (sim s) !! name = Some network →
  heap s !! network = Some net →
  "neurons" ∈ objects net →
  (∀ name, name ∈ before → is_Some (dict_get p name)) →
  dict_get p missing = None →
  CPPStandaloneSimulator_run d p (before ++ missing :: after) name s =
    Raise (KeyError missing) s' →
  sim s' = sim s ∧
  has_been_run (device s') = false ∧
  builds (device s') = builds (device s) ∧
  launches (device s') = launches (device s) ∧
  files (device s') = files (device s) ∧
  ∃ stale,
    main_queue (device s') = main_queue (device s) ++ stale ∧
    Forall is_set_by_array stale ∧ length stale = length before ∧
    ∀ d2 p2 s2,
      CPPStandaloneSimulator_run d2 p2 (before ++ missing :: after) name s' =
        Ok tt s2 →
      ∃ queued,
        length queued = length (before ++ missing :: after) ∧
        main_queue (device s2) =
          main_queue (device s) ++ stale ++ queued ++
          var_init_items (var_init (sim s)) ++ [run_network network d2].
Proof.
  intros Hrun Hname Hnet Hneu Hbefore Hmissing Hraise.
  destruct (CPPStandaloneSimulator_first_run_missing d p name network net
              before missing after s Hrun Hname Hnet Hneu Hbefore Hmissing)
    as (stale & arrays & Hmodel & Hstale & Hlen).
  rewrite Hmodel in Hraise. injection Hraise as <-. simpl.
  repeat (split; [done |]). exists stale. repeat (split; [done |]).
  intros d2 p2 s2 Hretry.
  destruct (present_or_first_missing p2 (before ++ missing :: after))
    as [Hall | (before2 & missing2 & after2 & Heq & Hbefore2 & Hmissing2)].
  - match type of Hretry with CPPStandaloneSimulator_run _ _ _ _ ?s' = _ =>
      destruct (CPPStandaloneSimulator_first_run d2 p2
                  (before ++ missing :: after) name network net s')
        as (init_dict & queued & arrays2 & Hok & _ & _ & Hlen2); try done
    end.
    rewrite Hok in Hretry. injection Hretry as <-.
    exists queued. split; [done |]. simpl. by rewrite <- !app_assoc.
  - rewrite Heq in Hretry.
    match type of Hretry with CPPStandaloneSimulator_run _ _ _ _ ?s' = _ =>
      destruct (CPPStandaloneSimulator_first_run_missing d2 p2 name network net
                  before2 missing2 after2 s')
        as (stale2 & arrays2 & Hfail & _); try done
    end.
    by rewrite Hfail in Hretry.
Qed.

(** ** [initialize_neurons] *)

Lemma initialize_neurons_from_registers neurons params :
  ∀ params_names acc s,
  NoDup params_names →
  (∀ name, name ∈ params_names → is_Some (dict_get params name)) →
  ∃ init_dict arrays,
    initialize_neurons_from acc params_names neurons params s =
      Ok init_dict
        {| sim := sim s; heap := heap s;
           device :=
             {| has_been_run := has_been_run (device s);
                main_queue :=
                  main_queue (device s) ++
                  map (fun name =>
                         set_by_array (get_array_name (neurons, name))
                           (default "" (init_dict !! name)) false)
                      params_names;
                static_arrays := arrays;
                files := files (device s);
                builds := builds (device s);
                launches := launches (device s) |} |} ∧
    (∀ name, name ∉ params_names → init_dict !! name = acc !! name) ∧
    (∀ name, name ∈ params_names →
       ∃ identifier, init_dict !! name = Some identifier ∧
                     is_Some (arrays !! identifier)) ∧
    (∀ identifier, is_Some (static_arrays (device s) !! identifier) →
                   is_Some (arrays !! identifier)).
Proof.
  induction params_names as [|name rest IH]; intros acc s Hnodup Hin.
  - exists acc, (static_arrays (device s)). simpl. unfold ret.
    rewrite app_nil_r. destruct s as [sm h []]. simpl.
    split; [done |]. split; [done |]. split; [| done].
    intros name Hname. by apply elem_of_nil in Hname.
  - apply NoDup_cons in Hnodup as [Hfresh Hnodup].
    destruct (Hin name) as [value Hvalue]; [by left |].
    simpl initialize_neurons_from. unfold bind at 1. unfold neurons_getattr, ret.
    unfold bind at 1. unfold dict_getitem. rewrite Hvalue. unfold ret.
    unfold bind at 1. unfold initialize_parameter.
    unfold bind at 1. unfold device_static_array.
    unfold bind at 1. unfold main_queue_append, modify, ret.
    set (static_name := static_array_name (static_arrays (device s)) (get_array_name (neurons, name))).
    match goal with |- context [initialize_neurons_from ?acc' rest neurons params ?s'] =>
      destruct (IH acc' s' Hnodup)
        as (init_dict & arrays & -> & Hother & Hlisted & Hgrow)
    end.
    { intros name' Hin'. apply Hin. by right. }
    assert (init_dict !! name = Some static_name) as Hname.
    { rewrite Hother by done. apply lookup_insert_eq. }
    exists init_dict, arrays. simpl. rewrite <- app_assoc. simpl.
    rewrite Hname. simpl. split; [done |]. split; [| split].
    + intros name' Hname'. apply not_elem_of_cons in Hname' as [Hne Hname'].
      rewrite Hother by done. by rewrite lookup_insert_ne.
    + intros name' Hname'. apply elem_of_cons in Hname' as [->|Hname'].
      * exists static_name. split; [done |]. apply Hgrow. simpl.
        rewrite lookup_insert_eq. by eexists.
      * by apply Hlisted.
    + intros identifier Hsome. apply Hgrow. simpl.
      rewrite lookup_insert_is_Some. destruct (decide (static_name = identifier)); eauto.
Qed.

(** X13. When [initialize_neurons] returns for [params_names] without
    repetition, every name was a key of [params], and the [dict] it returns
    has exactly these names as keys.  It has queued, in the order of
    [params_names], one [set_by_array] per name, from the static array that
    the [dict] gives for the name to the array of that variable of the
    group, and each of these static arrays exists on the device.  It has
    touched nothing else. *)
Theorem initialize_neurons_registers params_names neurons params s init_dict s' :
  NoDup params_names →
  initialize_neurons params_names neurons params s = Ok init_dict s' →
  (∀ name, name ∈ params_names → is_Some (dict_get params name)) ∧
  dom init_dict = list_to_set params_names ∧
  main_queue (device s') =
    main_queue (device s) ++
    map (fun name =>
           set_by_array (get_array_name (neurons, name))
             (default "" (init_dict !! name)) false) params_names ∧
  (∀ name identifier, init_dict !! name = Some identifier →
     is_Some (static_arrays (device s') !! identifier)) ∧
  sim s' = sim s ∧ heap s' = heap s ∧
  files (device s') = files (device s) ∧
  has_been_run (device s') = has_been_run (device s) ∧
  builds (device s') = builds (device s) ∧
  launches (device s') = launches (device s).
Proof.
  intros Hnodup Hreturn.
  assert (∀ name, name ∈ params_names → is_Some (dict_get params name)) as Hin.
  { destruct (present_or_first_missing params params_names)
      as [Hall | (before & missing & after & -> & Hbefore & Hmissing)]; [done |].
    destruct (initialize_neurons_from_missing neurons params before missing
                after ∅ s Hbefore Hmissing) as (stale & arrays & Hfail & _).
    unfold initialize_neurons in Hreturn. by rewrite Hfail in Hreturn. }
  split; [done |].
  destruct (initialize_neurons_from_registers neurons params params_names ∅ s
              Hnodup Hin) as (init_dict0 & arrays & Hinit & Hother & Hlisted & _).
  unfold initialize_neurons in Hreturn. rewrite Hinit in Hreturn.
  injection Hreturn as <- <-. simpl.
  split; [| split; [done | split; [| done]]].
  - apply set_eq. intros name. rewrite elem_of_dom, elem_of_list_to_set.
    split.
    + intros [identifier Hid]. destruct (decide (name ∈ params_names)); [done |].
      rewrite Hother, lookup_empty in Hid by done. done.
    + intros Hname. destruct (Hlisted name Hname) as (identifier & -> & _). eauto.
  - intros name identifier Hid.
    destruct (decide (name ∈ params_names)) as [Hname|Hname].
    + destruct (Hlisted name Hname) as (identifier' & Hid' & Hsome). congruence.
    + rewrite Hother, lookup_empty in Hid by done. done.
Qed.

(** X14. [initialize] and then [run], on a [RuntimeSimulator] in any
    state: when both calls return, the network had both roles, and the
    trace read under [name] is that of the network as [initialize] found
    it, after [set_states(params)], the [var_init] of this [initialize] and
    the advance.  No other network has changed. *)
Theorem initialize_then_run network vi name net d p pn s s1 s2 :
  heap s !! network = Some net →
  RuntimeSimulator_initialize network vi name s = Ok tt s1 →
  RuntimeSimulator_run d p pn name s1 = Ok tt s2 →
  "monitor" ∈ objects net ∧ "neurons" ∈ objects net ∧
  output_trace name s2 =
    Some (Monitor_record (Network_advance d
            (apply_var_init vi (Group_set_states p (current net))))) ∧
  ∀ other, other ≠ network → heap s2 !! other = heap s !! other.
Proof.
  intros Hnet Hinit Hrun.
  destruct (initialize_cases network vi name s)
    as [(Hnone & _) | [(net' & _ & _ & Hr & _) | (net' & Hnet' & Hm & Hn & Hr & _)]].
  - congruence.
  - by rewrite Hr in Hinit.
  - rewrite Hnet in Hnet'. injection Hnet' as <-.
    rewrite Hr in Hinit. injection Hinit as <-.
    erewrite RuntimeSimulator_run_spec in Hrun;
      [| simpl; apply lookup_insert_eq | simpl; apply lookup_insert_eq
       | reflexivity | done].
    injection Hrun as <-.
    split; [done |]. split; [done |]. split.
    + unfold output_trace. simpl. by rewrite !lookup_insert_eq.
    + intros other Hne. simpl. by rewrite !lookup_insert_ne.
Qed.

End FrameProofs.

(** ** These theorems on the integrator *)

Lemma initialize_fails_cleanly_witness :
  new_state = new_state ∧
  (role_error = AssertionError ∨ role_error = role_error) ∧
  RuntimeSimulator_initialize 2%positive None "fit" new_state =
    Raise role_error new_state ∧
  CPPStandaloneSimulator_initialize 2%positive None "fit" new_state =
    Raise role_error new_state.
Proof.
  apply (initialize_fails_cleanly (B := integrator) 2%positive None "fit"
           new_state role_error new_state).
  left. reflexivity.
Defined.

Lemma run_unregistered_name_witness :
  RuntimeSimulator_run three_steps only_v ["v"] "nope" runtime_fit =
    Raise (KeyError "nope") runtime_fit ∧
  CPPStandaloneSimulator_run three_steps only_v ["v"] "nope" cpp_compiled =
    Raise (KeyError "nope") cpp_compiled.
Proof.
  split.
  - apply (run_unregistered_name (B := integrator) three_steps only_v ["v"]
             "nope" runtime_fit). reflexivity.
  - apply (run_unregistered_name (B := integrator) three_steps only_v ["v"]
             "nope" cpp_compiled). reflexivity.
Defined.

Lemma registered_names_stay_witness :
  is_Some (networks (sim (exec_all cpp_exec two_reruns cpp_compiled)) !! "fit").
Proof.
  apply (registered_names_stay (B := integrator) cpp_exec two_reruns
           cpp_compiled "fit").
  - right. reflexivity.
  - exists 1%positive. reflexivity.
Defined.

Lemma earlier_run_is_discarded_witness :
  RuntimeSimulator_run five_steps v_and_I ["v"; "I"] "fit"
    (final (RuntimeSimulator_run three_steps only_v ["v"] "fit" runtime_fit)) =
  RuntimeSimulator_run five_steps v_and_I ["v"; "I"] "fit" runtime_fit.
Proof.
  apply (earlier_run_is_discarded (B := integrator) three_steps only_v ["v"]
           five_steps v_and_I ["v"; "I"] "fit" runtime_fit).
  unfold runtime_fit. apply reachable_call, reachable_new.
Defined.

Lemma traces_follow_networks_witness :
  output_trace "other"
    (final (RuntimeSimulator_run three_steps only_v ["v"] "fit" runtime_other)) =
    output_trace "other" runtime_other ∧
  output_trace "again"
    (final (RuntimeSimulator_run three_steps only_v ["v"] "fit" runtime_alias)) =
    output_trace "fit"
      (final (RuntimeSimulator_run three_steps only_v ["v"] "fit" runtime_alias)).
Proof.
  split.
  - apply (traces_follow_networks (B := integrator) three_steps only_v ["v"]
             "fit" "other" 1%positive 3%positive runtime_other);
      [reflexivity | reflexivity | discriminate].
  - apply (traces_follow_networks (B := integrator) three_steps only_v ["v"]
             "fit" "again" 1%positive 1%positive runtime_alias);
      reflexivity.
Defined.

Lemma compiled_run_ignores_arguments_witness :
  CPPStandaloneSimulator_run three_steps only_v ["v"] "fit" cpp_compiled =
  CPPStandaloneSimulator_run five_steps only_v [] "fit" cpp_compiled.
Proof.
  apply (compiled_run_ignores_arguments (B := integrator) three_steps five_steps
           only_v ["v"] [] "fit" "fit" cpp_compiled).
  - reflexivity.
  - exists 1%positive. reflexivity.
  - exists 1%positive. reflexivity.
Defined.

Lemma set_states_writes_the_files_witness :
  ∃ s',
    set_states file_of_v only_v cpp_compiled = Ok tt s' ∧
    files (device s') !! "file_v" = Some 10%Z.
Proof.
  destruct (set_states_writes_the_files (B := integrator) file_of_v only_v
              cpp_compiled) as (s' & Hok & _ & Hfile & _).
  - reflexivity.
  - intros obj_name obj_values Hmem.
    apply list_elem_of_singleton in Hmem as [= -> ->]. exists "file_v". reflexivity.
  - exists s'. split; [exact Hok |].
    apply (Hfile "v" 10%Z "file_v").
    + apply list_elem_of_singleton. reflexivity.
    + reflexivity.
    + intros obj_name' obj_values' Hmem _.
      by apply list_elem_of_singleton in Hmem as [= -> ->].
Defined.

Lemma set_states_stops_at_missing_key_witness :
  set_states file_of_v (only_v ++ ("w", 4%Z) :: I_only) cpp_compiled =
    Raise (KeyError "w") (with_files (written file_of_v only_v) cpp_compiled).
Proof.
  apply (set_states_stops_at_missing_key (B := integrator) file_of_v only_v
           "w" 4%Z I_only cpp_compiled).
  - reflexivity.
  - intros k v Hmem.
    apply list_elem_of_singleton in Hmem as [= -> ->]. exists "file_v". reflexivity.
  - reflexivity.
Defined.

Lemma rerun_with_unknown_parameter_witness :
  ∃ s1 init_dict,
    CPPStandaloneSimulator_run three_steps only_v ["v"] "fit" cpp_fit = Ok tt s1 ∧
    params_init (sim s1) = Some init_dict ∧
    CPPStandaloneSimulator_run five_steps (only_v ++ ("w", 4%Z) :: []) ["w"] "fit" s1 =
      Raise (KeyError "w") (with_files (written init_dict only_v) s1) ∧
    launches (device (with_files (written init_dict only_v) s1)) =
      launches (device s1).
Proof.
  apply (rerun_with_unknown_parameter (B := integrator) three_steps only_v ["v"]
           "fit" 1%positive a_network five_steps ["w"] "fit" only_v "w" 4%Z []
           cpp_fit).
  - reflexivity.
  - reflexivity.
  - reflexivity.
  - apply (bool_decide_unpack _). vm_compute. exact I.
  - intros name Hin. apply list_elem_of_singleton in Hin as ->.
    exists 10%Z. reflexivity.
  - exists 1%positive. reflexivity.
  - intros k0 v0 Hmem. apply list_elem_of_singleton in Hmem as [= -> ->].
    apply list_elem_of_singleton. reflexivity.
  - intros Hin. apply list_elem_of_singleton in Hin. discriminate Hin.
Defined.

Lemma first_run_with_missing_parameter_witness :
  ∃ s' stale,
    CPPStandaloneSimulator_run three_steps only_v (["v"] ++ "I" :: []) "fit" cpp_fit =
      Raise (KeyError "I") s' ∧
    has_been_run (device s') = false ∧
    params_init (sim s') = None ∧
    length stale = 1 ∧
    main_queue (device s') = main_queue (device cpp_fit) ++ stale.
Proof.
  assert (∃ s', CPPStandaloneSimulator_run three_steps only_v
                  (["v"] ++ "I" :: []) "fit" cpp_fit = Raise (KeyError "I") s')
    as [s' Hraise] by (eexists; reflexivity).
  destruct (first_run_with_missing_parameter (B := integrator) three_steps only_v
              "fit" 1%positive a_network ["v"] "I" [] cpp_fit s')
    as (Hsim & Hflag & _ & _ & _ & stale & Hqueue & _ & Hlen & _).
  - reflexivity.
  - reflexivity.
  - reflexivity.
  - apply (bool_decide_unpack _). vm_compute. exact I.
  - intros name Hin. apply list_elem_of_singleton in Hin as ->.
    exists 10%Z. reflexivity.
  - reflexivity.
  - exact Hraise.
  - exists s', stale. split; [exact Hraise |]. split; [exact Hflag |].
    split; [by rewrite Hsim |]. split; [exact Hlen |]. exact Hqueue.
Defined.

Lemma initialize_neurons_registers_witness :
  ∃ init_dict s',
    initialize_neurons ["v"; "I"] 1%positive v_and_I new_state = Ok init_dict s' ∧
    dom init_dict = list_to_set ["v"; "I"] ∧
    length (main_queue (device s')) = 2.
Proof.
  assert (∃ init_dict s',
            initialize_neurons ["v"; "I"] 1%positive v_and_I new_state =
              Ok init_dict s')
    as (init_dict & s' & Hreturn) by (eexists _, _; reflexivity).
  destruct (initialize_neurons_registers (B := integrator) ["v"; "I"] 1%positive
              v_and_I new_state init_dict s')
    as (_ & Hdom & Hqueue & _).
  - apply (bool_decide_unpack _). vm_compute. exact I.
  - exact Hreturn.
  - exists init_dict, s'. split; [exact Hreturn |]. split; [exact Hdom |].
    rewrite Hqueue. reflexivity.
Defined.

Lemma initialize_then_run_witness :
  ∃ s2,
    RuntimeSimulator_initialize 3%positive (Some [("I", 2%Z)]) "fit" new_state =
      Ok tt runtime_three ∧
    RuntimeSimulator_run three_steps only_v ["v"] "fit" runtime_three = Ok tt s2 ∧
    output_trace "fit" s2 = Some [12; 14; 16]%Z.
Proof.
  assert (∃ s2, RuntimeSimulator_run three_steps only_v ["v"] "fit" runtime_three =
                  Ok tt s2)
    as [s2 Hrun] by (eexists; reflexivity).
  destruct (initialize_then_run (B := integrator) 3%positive (Some [("I", 2%Z)])
              "fit" another_network three_steps only_v ["v"] new_state
              runtime_three s2)
    as (_ & _ & Htrace & _).
  - reflexivity.
  - reflexivity.
  - exact Hrun.
  - exists s2. split; [reflexivity |]. split; [exact Hrun |].
    rewrite Htrace. reflexivity.
Defined.
